(** * Admin call-monitoring subsystem of livekit-demo

    A shallow embedding of the Python monitoring code documented in
    CODE_FLOWS_INTEGRATION.md and TECHNICAL_ARCHITECTURE.md:
    - [AdminWebSocketManager] (subscribe_to_conversation,
      broadcast_to_admins, remove_admin),
    - the silence watchdog [_monitor_conversation_health],
    - the admin token generator [AuthManager.generate_admin_token],
    - [ConversationMonitor.log_event].

    Python dicts keyed by strings are stdpp [gmap]s, Python sets are
    [gset]s, awaited calls that may raise return a [py_result]. *)

From stdpp Require Import gmap strings list fin_maps.
From Stdlib Require Import ZArith.
From Stdlib Require QArith Qround.

(** ** Python-side exceptions and results *)

Inductive exc :=
| ConnectionClosed
| WebSocketDisconnect
| OtherException
| ConversationNotFound
| AttributeError.

(** A Python call that returns normally, or raises, together with the
    state reached at that point. *)
Inductive py_result (A : Type) :=
| PyOk (st : A)
| PyRaise (e : exc) (st : A).
Arguments PyOk {A} st.
Arguments PyRaise {A} e st.

(** The state reached by a call, whether it returned or raised. *)
Definition py_state {A} (r : py_result A) : A :=
  match r with PyOk st => st | PyRaise _ st => st end.

Module Manager.

(** ** Messages

    The dicts passed to [broadcast_to_admins]: a ["type"], an optional
    ["conversation_id"] (absent key or [None] is [None]) and the rest of
    the payload, kept opaque. *)
Record message := Msg {
  msg_type : string;
  msg_conversation_id : option string;
  msg_payload : string
}.

(** [conversation_id = message.get("conversation_id")] followed by the
    truthiness test [if conversation_id:]; the empty string is falsy. *)
Definition conversation_key (m : message) : option string :=
  match msg_conversation_id m with
  | Some cid => if String.eqb cid "" then None else Some cid
  | None => None
  end.

#[global] Instance message_eq_dec : EqDecision message.
Proof. solve_decision. Defined.

(** ** Admin channels

    [send_json] on an admin's websocket either succeeds, raises one of the
    two exceptions caught by [broadcast_to_admins], or raises something
    else; it takes [send_latency] time units before the [await] resumes. *)
Inductive send_outcome :=
| SendOk
| SendConnectionClosed
| SendWebSocketDisconnect
| SendOtherError.

#[global] Instance send_outcome_eq_dec : EqDecision send_outcome.
Proof. solve_decision. Defined.

Record channel := Channel {
  send_result : send_outcome;
  send_latency : nat
}.

(** A send that fails with one of the two exceptions the loop catches. *)
Definition transport_failure (o : send_outcome) : Prop :=
  o = SendConnectionClosed \/ o = SendWebSocketDisconnect.

(** How each admin's websocket behaves during a call. *)
Definition network := string -> channel.

Definition websocket := nat.

(** ** Manager state

    [admin_connections] and [conversation_subscriptions] are the two dicts
    of [AdminWebSocketManager]; [outbox] records, in order, every message
    handed successfully to [admin_connections[admin_id].send_json];
    [clock] is the time at which the current coroutine runs. *)
Record world := World {
  admin_connections : gmap string websocket;
  conversation_subscriptions : gmap string (gset string);
  outbox : list (string * message);
  clock : nat
}.

Definition set_connections (c : gmap string websocket) (w : world) : world :=
  World c (conversation_subscriptions w) (outbox w) (clock w).
Definition set_subscriptions (s : gmap string (gset string)) (w : world) : world :=
  World (admin_connections w) s (outbox w) (clock w).
Definition add_outbox (p : string * message) (w : world) : world :=
  World (admin_connections w) (conversation_subscriptions w) (outbox w ++ [p]) (clock w).
Definition set_clock (t : nat) (w : world) : world :=
  World (admin_connections w) (conversation_subscriptions w) (outbox w) t.

(** The messages admin [a]'s channel has received, in order. *)
Definition received (a : string) (w : world) : list message :=
  (filter (fun p : string * message => p.1 = a) (outbox w)).*2.

(** [await self.admin_connections[admin_id].send_json(message)] *)
Definition send_json (net : network) (a : string) (m : message) (w : world)
    : send_outcome * world :=
  let ch := net a in
  let w1 := set_clock (clock w + send_latency ch) w in
  match send_result ch with
  | SendOk => (SendOk, add_outbox (a, m) w1)
  | r => (r, w1)
  end.

(** ** [remove_admin]

    [for conversation_id in list(self.conversation_subscriptions.keys())]:
    one step per key. The dict is a [defaultdict(set)], so indexing an
    absent key creates an empty set, which the emptiness test then deletes
    again. *)
Definition remove_subscription_step (admin_id : string)
    (subs : gmap string (gset string)) (conversation_id : string)
    : gmap string (gset string) :=
  match subs !! conversation_id with
  | Some s =>
      let s' := s ∖ {[admin_id]} in
      if decide (s' = ∅) then delete conversation_id subs
      else <[conversation_id := s']> subs
  | None => delete conversation_id subs
  end.

Definition remove_from_subscriptions (admin_id : string)
    (subs : gmap string (gset string)) : gmap string (gset string) :=
  foldl (remove_subscription_step admin_id) subs (elements (dom subs)).

(** The per-key effect of [remove_subscription_step]: the set without
    the admin, or no entry when that set is empty. *)
Definition prune_subscribers (admin_id : string) (s : gset string) : option (gset string) :=
  if decide (s ∖ {[admin_id]} = ∅) then None else Some (s ∖ {[admin_id]}).

Definition remove_admin (admin_id : string) (w : world) : world :=
  let w1 :=
    if decide (admin_id ∈ dom (admin_connections w))
    then set_connections (delete admin_id (admin_connections w)) w
    else w in
  set_subscriptions (remove_from_subscriptions admin_id (conversation_subscriptions w1)) w1.

(** An admin that is neither connected nor in any subscription set. *)
Definition detached (b : string) (w : world) : Prop :=
  admin_connections w !! b = None /\
  forall c s, conversation_subscriptions w !! c = Some s -> b ∉ s.

(** No conversation maps to an empty subscription set: [remove_admin]
    deletes emptied sets and [subscribe_to_conversation] only adds. *)
Definition subscriptions_nonempty (w : world) : Prop :=
  forall c s, conversation_subscriptions w !! c = Some s -> s <> ∅.

(** ** [broadcast_to_admins] *)

(** [target_admins]: the subscription set of the message's conversation,
    or every connected admin when the message has no (truthy)
    conversation id. *)
Definition target_admins (w : world) (m : message) : gset string :=
  match conversation_key m with
  | Some cid => default ∅ (conversation_subscriptions w !! cid)
  | None => dom (admin_connections w)
  end.

(** The [for admin_id in target_admins] loop, with its
    [disconnected_admins] accumulator. *)
Fixpoint send_to_targets (net : network) (m : message) (targets : list string)
    (w : world) (disconnected : list string)
    : py_result (world * list string) :=
  match targets with
  | [] => PyOk (w, disconnected)
  | a :: rest =>
      match admin_connections w !! a with
      | None => send_to_targets net m rest w disconnected
      | Some _ =>
          match send_json net a m w with
          | (SendOk, w') => send_to_targets net m rest w' disconnected
          | (SendConnectionClosed, w')
          | (SendWebSocketDisconnect, w') =>
              send_to_targets net m rest w' (disconnected ++ [a])
          | (SendOtherError, w') => PyRaise OtherException (w', disconnected)
          end
      end
  end.

Definition remove_admins (admins : list string) (w : world) : world :=
  foldl (fun w a => remove_admin a w) w admins.

Definition broadcast_to_admins (net : network) (m : message) (w : world)
    : py_result world :=
  match send_to_targets net m (elements (target_admins w m)) w [] with
  | PyOk (w', disconnected) => PyOk (remove_admins disconnected w')
  | PyRaise e (w', _) => PyRaise e w'
  end.

(** A publisher awaiting [broadcast_to_admins] once per message, in order. *)
Fixpoint publish_all (net : network) (msgs : list message) (w : world)
    : py_result world :=
  match msgs with
  | [] => PyOk w
  | m :: rest =>
      match broadcast_to_admins net m w with
      | PyOk w' => publish_all net rest w'
      | PyRaise e w' => PyRaise e w'
      end
  end.

(** [subscribe_to_conversation]: the set update (the history send that
    follows is not needed here). *)
Definition subscribe_to_conversation (admin_id conversation_id : string) (w : world)
    : world :=
  let s := default ∅ (conversation_subscriptions w !! conversation_id) in
  set_subscriptions (<[conversation_id := s ∪ {[admin_id]}]> (conversation_subscriptions w)) w.

(** The target admins whose [send_json] the loop of [broadcast_to_admins]
    awaits, in its iteration order: the connected ones, up to and including
    the first whose send raises an exception other than the two caught;
    and whether the loop stops there. The loop does not change
    [admin_connections], so [conns] is the dict at the start of the call. *)
Fixpoint attempted (net : network) (conns : gmap string websocket) (targets : list string)
    : list string * bool :=
  match targets with
  | [] => ([], false)
  | a :: rest =>
      match conns !! a with
      | None => attempted net conns rest
      | Some _ =>
          if decide (send_result (net a) = SendOtherError) then ([a], true)
          else let r := attempted net conns rest in (a :: r.1, r.2)
      end
  end.

End Manager.

(** ** Silence watchdog: [StreamingConversationMonitor._monitor_conversation_health] *)
Module Health.
Local Open Scope Z_scope.

(** Datetimes are integers of microseconds (the resolution of Python's
    [datetime]); [timedelta.total_seconds() > 30] is then
    [microseconds > 30 * 10^6]. *)
Definition us_per_second : Z := 1000000.
Definition silence_threshold_s : Z := 30.
Definition sweep_interval_s : Z := 5.

Record silence_alert := SilenceAlert {
  alert_conversation_id : string;
  alert_duration_us : Z;
  alert_timestamp : Z
}.

(** The decision of one iteration of [while self.is_streaming]: [now] is
    [datetime.utcnow()] (the iteration's three reads have no [await]
    between them and are taken as one), [last_activity] is
    [self.get_last_activity_time()]. Returns the new [silence_start] and
    the alert to broadcast in this iteration, if any. *)
Definition health_step (conversation_id : string) (silence_start : option Z)
    (now last_activity : Z) : option Z * option silence_alert :=
  let silence_duration := now - last_activity in
  if Z.gtb silence_duration (silence_threshold_s * us_per_second) then
    match silence_start with
    | None => (Some now, Some (SilenceAlert conversation_id silence_duration now))
    | Some s => (Some s, None)
    end
  else (None, None).

(** The decisions over a sequence of iterations that observed
    [(now, last_activity)], starting from [silence_start = None]; one
    entry per iteration. *)
Fixpoint health_loop (conversation_id : string) (silence_start : option Z)
    (obs : list (Z * Z)) : list (option silence_alert) :=
  match obs with
  | [] => []
  | (now, last_activity) :: rest =>
      let '(ss, alert) := health_step conversation_id silence_start now last_activity in
      alert :: health_loop conversation_id ss rest
  end.

Definition monitor_conversation_health (conversation_id : string) (obs : list (Z * Z))
    : list (option silence_alert) :=
  health_loop conversation_id None obs.

(** Whether an observation is a silent tick (silence above threshold). *)
Definition silent_tick (o : Z * Z) : bool :=
  Z.gtb (o.1 - o.2) (silence_threshold_s * us_per_second).

(** Spec side: marks the first tick of each maximal run of silent ticks,
    and counts those runs. *)
Fixpoint streak_starts (prev : bool) (bs : list bool) : list bool :=
  match bs with
  | [] => []
  | b :: rest => (b && negb prev) :: streak_starts b rest
  end.

Fixpoint count_streaks (in_streak : bool) (bs : list bool) : nat :=
  match bs with
  | [] => 0
  | true :: rest => if in_streak then count_streaks true rest else S (count_streaks true rest)
  | false :: rest => count_streaks false rest
  end.

Definition alerts_raised (al : list (option silence_alert)) : nat :=
  length (filter (fun o : option silence_alert => is_Some o) al).

(** ** The loop in time

    The dict the loop hands to [self.websocket_manager.broadcast_to_admins]
    (its duration and timestamp are kept in the [silence_alert]). *)
Definition silence_alert_message (a : silence_alert) : Manager.message :=
  Manager.Msg "silence_alert" (Some (alert_conversation_id a)) "".

(** One iteration as it ran: when it started, the alert it broadcast, how
    long the awaited broadcast took (microseconds), and whether the
    broadcast raised, so that the [except Exception] branch ran. *)
Record health_pass := HealthPass {
  pass_time : Z;
  pass_alert : option silence_alert;
  pass_busy : Z;
  pass_raised : bool
}.

(** [fuel] iterations of the loop from time [now]. [activity t] is what
    [self.get_last_activity_time()] returns at time [t]; the manager's
    clock counts seconds. An iteration that alerts awaits the broadcast
    before its [asyncio.sleep(5)]; when the broadcast raises, the
    [except] branch logs and the loop goes on without sleeping
    ([silence_start] was set before the broadcast). *)
Fixpoint health_run (net : Manager.network) (conversation_id : string) (activity : Z -> Z)
    (fuel : nat) (now : Z) (silence_start : option Z) (w : Manager.world)
    : list health_pass * Manager.world :=
  match fuel with
  | O => ([], w)
  | S fuel' =>
      let '(ss, alert) := health_step conversation_id silence_start now (activity now) in
      match alert with
      | None =>
          let '(ps, w') := health_run net conversation_id activity fuel'
                             (now + sweep_interval_s * us_per_second) ss w in
          (HealthPass now None 0 false :: ps, w')
      | Some a =>
          let r := Manager.broadcast_to_admins net (silence_alert_message a) w in
          let w1 := py_state r in
          let busy := Z.of_nat (Manager.clock w1 - Manager.clock w) * us_per_second in
          let raised := match r with PyOk _ => false | PyRaise _ _ => true end in
          let next := if raised then now + busy
                      else now + busy + sweep_interval_s * us_per_second in
          let '(ps, w') := health_run net conversation_id activity fuel' next ss w1 in
          (HealthPass now (Some a) busy raised :: ps, w')
      end
  end.

End Health.

(** ** Admin tokens: [AuthManager.generate_admin_token] *)
Module Auth.

(** A Python function call: its return value or the exception it raises. *)
Inductive py_return (A : Type) :=
| Returns (v : A)
| Raises (e : exc).
Arguments Returns {A} v.
Arguments Raises {A} e.

Record room_grants := RoomGrants {
  room_join : bool;
  room : string;
  can_subscribe : bool;
  can_publish : bool;
  hidden : bool
}.

(** The claims of the access token; [to_jwt] signs them with the
    module's API key and secret, which is left to the platform library. *)
Record access_token := AccessToken {
  identity : string;
  grants : room_grants
}.

Definition generate_admin_token (room_name admin_id : string) : py_return access_token :=
  Returns (AccessToken ("admin_" ++ admin_id)
             (RoomGrants true room_name true false true)).

End Auth.

(** ** Event log: [ConversationMonitor.log_event] *)
Module Monitor.

Record conversation_event := ConversationEvent {
  ev_kind : string;
  ev_payload : string
}.

(** A [ConversationMonitor]: its [events] list, the ["status"] entry of
    its [metadata], and the effects of the awaited collaborators
    ([db.store_event] and [broadcast_to_admins]) recorded in order. *)
Record conversation_monitor := ConversationMonitor {
  conversation_id : string;
  events : list conversation_event;
  status : string;
  stored : list (string * conversation_event);
  broadcast : list conversation_event
}.

(** [obj.name(...)] on an object whose class defines [methods]: the call
    runs when the class has the method, and attribute lookup raises
    [AttributeError] otherwise. *)
Definition call_method {A} (methods : list string) (name : string)
    (call : A -> py_result A) (st : A) : py_result A :=
  if decide (name ∈ methods) then call st else PyRaise AttributeError st.

(** The methods of [DatabaseDriver], the class of [self.db]. *)
Definition DatabaseDriver_methods : list string :=
  ["safe_transaction"; "store_conversation_event"].

(** The methods of [ConversationMonitor] and of its subclass
    [StreamingConversationMonitor]; [broadcast_to_admins] belongs to
    [AdminWebSocketManager], reached as [self.websocket_manager]. *)
Definition ConversationMonitor_methods : list string :=
  ["log_event"; "start_real_time_monitoring"; "handle_speech_event";
   "_stream_audio_to_admins"; "_monitor_conversation_health"].

(** [await self.db.store_event(self.conversation_id, event)] *)
Definition db_store_event (event : conversation_event) (mon : conversation_monitor)
    : py_result conversation_monitor :=
  PyOk (ConversationMonitor (conversation_id mon) (events mon) (status mon)
          (stored mon ++ [(conversation_id mon, event)]) (broadcast mon)).

(** [await self.broadcast_to_admins(event)] *)
Definition monitor_broadcast (event : conversation_event) (mon : conversation_monitor)
    : py_result conversation_monitor :=
  PyOk (ConversationMonitor (conversation_id mon) (events mon) (status mon)
          (stored mon) (broadcast mon ++ [event])).

Definition log_event (mon : conversation_monitor) (event : conversation_event)
    : py_result conversation_monitor :=
  let mon1 := ConversationMonitor (conversation_id mon) (events mon ++ [event])
                (status mon) (stored mon) (broadcast mon) in
  match call_method DatabaseDriver_methods "store_event" (db_store_event event) mon1 with
  | PyOk mon2 =>
      call_method ConversationMonitor_methods "broadcast_to_admins"
        (monitor_broadcast event) mon2
  | PyRaise e mon2 => PyRaise e mon2
  end.

End Monitor.

(** ** The rest of [AdminWebSocketManager], and [handle_speech_event] *)
Module ManagerExt.
Import Manager.

(** The exception a failed [send_json] raises when nothing catches it. *)
Definition send_exception (o : send_outcome) : exc :=
  match o with
  | SendConnectionClosed => ConnectionClosed
  | SendWebSocketDisconnect => WebSocketDisconnect
  | _ => OtherException
  end.

(** [broadcast_audio_chunk]: the ["audio_chunk"] message carries the
    conversation id and the base64 text of the chunk (kept opaque). *)
Definition audio_chunk_message (conversation_id encoded_chunk : string) : message :=
  Msg "audio_chunk" (Some conversation_id) encoded_chunk.

(** The loop of [broadcast_audio_chunk]: a bare [except: pass] swallows
    every failure of [send_json]. *)
Fixpoint send_audio_to_targets (net : network) (m : message) (targets : list string)
    (w : world) : world :=
  match targets with
  | [] => w
  | a :: rest =>
      match admin_connections w !! a with
      | None => send_audio_to_targets net m rest w
      | Some _ => send_audio_to_targets net m rest (send_json net a m w).2
      end
  end.

Definition broadcast_audio_chunk (net : network) (conversation_id encoded_chunk : string)
    (w : world) : py_result world :=
  let target_admins := default ∅ (conversation_subscriptions w !! conversation_id) in
  PyOk (send_audio_to_targets net (audio_chunk_message conversation_id encoded_chunk)
          (elements target_admins) w).

(** [register_admin]: [websocket.accept()] is taken to succeed; the
    ["initial_state"] message carries the (opaque) list returned by
    [get_active_conversations]. The connection is stored before the send,
    so a failing send leaves it registered and propagates. *)
Definition initial_state_message (active_conversations : string) : message :=
  Msg "initial_state" None active_conversations.

Definition register_admin (net : network) (admin_id : string) (ws : websocket)
    (active_conversations : string) (w : world) : py_result world :=
  let w1 := set_connections (<[admin_id := ws]> (admin_connections w)) w in
  match send_json net admin_id (initial_state_message active_conversations) w1 with
  | (SendOk, w2) => PyOk w2
  | (r, w2) => PyRaise (send_exception r) w2
  end.

(** [subscribe_to_conversation] with its history send: the set update of
    [Manager.subscribe_to_conversation], then the ["conversation_history"]
    message, sent only to a connected admin. [history] is what
    [get_conversation_history] returns. *)
Definition conversation_history_message (conversation_id history : string) : message :=
  Msg "conversation_history" (Some conversation_id) history.

Definition subscribe_to_conversation (net : network) (admin_id conversation_id : string)
    (history : string) (w : world) : py_result world :=
  let w1 := Manager.subscribe_to_conversation admin_id conversation_id w in
  if decide (admin_id ∈ dom (admin_connections w1)) then
    match send_json net admin_id (conversation_history_message conversation_id history) w1 with
    | (SendOk, w2) => PyOk w2
    | (r, w2) => PyRaise (send_exception r) w2
    end
  else PyOk w1.

(** [broadcast_conversation_update] of the second [AdminWebSocketManager]
    (TECHNICAL_ARCHITECTURE.md), whose only dict [connections] is
    [admin_connections] here: it sends to every connection, ignoring
    subscriptions, catches [ConnectionClosed] only, and deletes the closed
    connections after the loop. [websocket.send] behaves as the admin's
    channel in [net]. *)
Definition conversation_update_message (conversation_id update : string) : message :=
  Msg "conversation_update" (Some conversation_id) update.

Fixpoint send_update_to_all (net : network) (m : message) (admins : list string)
    (w : world) (disconnected : list string) : py_result (world * list string) :=
  match admins with
  | [] => PyOk (w, disconnected)
  | a :: rest =>
      match send_json net a m w with
      | (SendOk, w') => send_update_to_all net m rest w' disconnected
      | (SendConnectionClosed, w') => send_update_to_all net m rest w' (disconnected ++ [a])
      | (r, w') => PyRaise (send_exception r) (w', disconnected)
      end
  end.

Definition broadcast_conversation_update (net : network) (conversation_id update : string)
    (w : world) : py_result world :=
  match send_update_to_all net (conversation_update_message conversation_id update)
          (elements (dom (admin_connections w))) w [] with
  | PyOk (w', disconnected) =>
      PyOk (set_connections (foldl (fun c a => delete a c) (admin_connections w') disconnected) w')
  | PyRaise e (w', _) => PyRaise e w'
  end.

End ManagerExt.

(** ** [StreamingConversationMonitor.handle_speech_event] *)
Module Speech.
Import Manager Monitor.

Inductive speech_event_type :=
| INTERIM_TRANSCRIPT
| FINAL_TRANSCRIPT
| OTHER_SPEECH_EVENT.

#[global] Instance speech_event_type_eq_dec : EqDecision speech_event_type.
Proof. solve_decision. Defined.

(** A speech event: its type, speaker and the text of its first
    alternative. *)
Record speech_event := SpeechEvent {
  se_type : speech_event_type;
  se_speaker : string;
  se_text : string
}.

(** The methods of the [ConversationEvent] dataclass: it defines none, so
    [transcript_event.to_dict()] raises [AttributeError]. *)
Definition ConversationEvent_methods : list string := [].

(** The monitor and its [websocket_manager], threaded together. The
    ["final_transcript"] dict is built, calling [to_dict()], after
    [log_event] returns and before [broadcast_to_admins] is awaited. *)
Definition handle_speech_event (net : network) (mon : conversation_monitor) (w : world)
    (event : speech_event) : py_result (conversation_monitor * world) :=
  match se_type event with
  | INTERIM_TRANSCRIPT =>
      match broadcast_to_admins net
              (Msg "interim_transcript" (Some (conversation_id mon)) (se_text event)) w with
      | PyOk w' => PyOk (mon, w')
      | PyRaise e w' => PyRaise e (mon, w')
      end
  | FINAL_TRANSCRIPT =>
      let transcript_event := ConversationEvent "speech" (se_text event) in
      match log_event mon transcript_event with
      | PyOk mon' =>
          if decide ("to_dict" ∈ ConversationEvent_methods) then
            match broadcast_to_admins net
                    (Msg "final_transcript" (Some (conversation_id mon')) (se_text event)) w with
            | PyOk w' => PyOk (mon', w')
            | PyRaise e w' => PyRaise e (mon', w')
            end
          else PyRaise AttributeError (mon', w)
      | PyRaise e mon' => PyRaise e (mon', w)
      end
  | OTHER_SPEECH_EVENT => PyOk (mon, w)
  end.

End Speech.

(** ** Recording storage: [RecordingStorageManager] and the egress webhook *)
Module Storage.

Record stored_object := StoredObject {
  obj_data : string;
  obj_content_type : string;
  obj_metadata : gmap string string
}.

(** The MinIO server: objects by (bucket, object name). *)
Abbreviation object_store := (gmap (string * string) stored_object).

(** What [presigned_get_object] signs: bucket, object, validity, and the
    time of signing (its [X-Amz-Date]); the signature is a function of
    these and the client's credentials. *)
Record presigned_url := PresignedUrl {
  url_bucket : string;
  url_object : string;
  url_expires_hours : nat;
  url_signed_at : string
}.

(** [self.bucket_name], and the bucket of [download_and_store_recording]. *)
Definition bucket_name : string := "call-recordings".

Definition recording_object_name (conversation_id : string) : string :=
  ("conversations/" ++ conversation_id ++ ".mp4")%string.

(** The [storage_metadata] dict before [update]. *)
Definition storage_defaults (conversation_id upload_timestamp : string) : gmap string string :=
  <["conversation-id" := conversation_id]>
    (<["upload-timestamp" := upload_timestamp]> (<["content-type" := "audio/mp4"]> ∅)).

(** [store_recording]: [metadata] is [None] or a dict; [if metadata:]
    skips the update for [None] and for an empty dict; [dict.update] lets
    the caller's keys win. [upload_timestamp] is the [utcnow()] of the
    metadata, [signed_at] the time [presigned_get_object] runs. Returns
    the presigned URL and the new store. *)
Definition store_recording (file_data conversation_id : string)
    (metadata : option (gmap string string)) (upload_timestamp signed_at : string)
    (store : object_store) : presigned_url * object_store :=
  let object_name := recording_object_name conversation_id in
  let defaults := storage_defaults conversation_id upload_timestamp in
  let storage_metadata :=
    match metadata with
    | Some md => if decide (md = ∅) then defaults else md ∪ defaults
    | None => defaults
    end in
  let store' := <[(bucket_name, object_name) :=
                   StoredObject file_data "video/mp4" storage_metadata]> store in
  (PresignedUrl bucket_name object_name 24 signed_at, store').

Definition get_recording_url (conversation_id : string) (expires_hours : nat)
    (signed_at : string) : presigned_url :=
  PresignedUrl bucket_name (recording_object_name conversation_id) expires_hours signed_at.

(** The object store and the [update_conversation_recording] calls. *)
Record storage_state := StorageState {
  objects : object_store;
  recording_updates : list (string * string)
}.

(** [download_and_store_recording]: [status] and [file_content] are the
    HTTP response to the download (a request that raises counts as a
    status other than 200: both end with the object store unchanged);
    [upload_ok] says whether [response.read()], the [Minio] client and
    [put_object] return normally. An exception from any of them is caught
    by the [except Exception] branch, which only logs. *)
Definition download_and_store_recording (status : nat) (file_content : string) (upload_ok : bool)
    (egress_id room_name file_size upload_timestamp : string) (st : storage_state)
    : storage_state :=
  if decide (status = 200) then
    if negb upload_ok then st else
    let object_name := ("conversations/" ++ egress_id ++ ".mp4")%string in
    let md := <["egress-id" := egress_id]> (<["room-name" := room_name]>
                (<["original-size" := file_size]>
                   (<["upload-timestamp" := upload_timestamp]> ∅))) in
    StorageState (<[(bucket_name, object_name) :=
                     StoredObject file_content "video/mp4" md]> (objects st))
                 (recording_updates st ++ [(egress_id, object_name)])
  else st.

(** A [file_results] entry: its ["download_url"] ([""] when absent or
    empty) and ["size"]. *)
Record file_result := FileResult {
  download_url : string;
  file_size : string
}.

(** [process_recording_completion]; [fetch] gives, for a download URL, the
    HTTP status and body served there and whether storing that body in
    MinIO returns normally. *)
Fixpoint store_file_results (fetch : string -> nat * string * bool) (egress_id room_name ts : string)
    (results : list file_result) (st : storage_state) : storage_state :=
  match results with
  | [] => st
  | fr :: rest =>
      let st' := if String.eqb (download_url fr) "" then st
                 else let '(status, body, upload_ok) := fetch (download_url fr) in
                      download_and_store_recording status body upload_ok
                        egress_id room_name (file_size fr) ts st in
      store_file_results fetch egress_id room_name ts rest st'
  end.

Definition process_recording_completion (fetch : string -> nat * string * bool)
    (egress_id room_name ts : string) (file_results : list file_result)
    (st : storage_state) : storage_state :=
  store_file_results fetch egress_id room_name ts file_results st.

End Storage.

(** ** Retry loops *)
Module Retry.
Local Open Scope Z_scope.

(** [DatabaseDriver.store_conversation_event]: [ok attempt] tells whether
    [execute_query] succeeds at that attempt. Returns whether the call
    raised, the [asyncio.sleep] durations in milliseconds, and the
    attempts made. *)
Definition max_retries : nat := 3.

Fixpoint store_event_loop (ok : nat -> bool) (attempts : list nat)
    : bool * list Z * list nat :=
  match attempts with
  | [] => (false, [], [])
  | attempt :: rest =>
      if ok attempt then (false, [], [attempt])
      else if Nat.eqb attempt (max_retries - 1) then (true, [], [attempt])
      else
        let '(raised, sleeps, tried) := store_event_loop ok rest in
        (raised, 500 * 2 ^ Z.of_nat attempt :: sleeps, attempt :: tried)
  end.

Definition store_conversation_event (ok : nat -> bool) : bool * list Z * list nat :=
  store_event_loop ok (seq 0 max_retries).

(** [EnhancedAgent.handle_connection_error]: [ok attempt] tells whether
    [reconnect] succeeds; a successful reconnect makes [is_connected]
    true. Returns the sleeps in milliseconds, the attempts made, and
    whether [graceful_shutdown] is awaited. *)
Fixpoint reconnect_loop (ok : nat -> bool) (attempts : list nat) (connected : bool)
    : list Z * list nat * bool :=
  match attempts with
  | [] => ([], [], connected)
  | attempt :: rest =>
      if ok attempt then ([1000 * 2 ^ Z.of_nat attempt], [attempt], true)
      else
        let '(sleeps, tried, c) := reconnect_loop ok rest connected in
        (1000 * 2 ^ Z.of_nat attempt :: sleeps, attempt :: tried, c)
  end.

Definition handle_connection_error (ok : nat -> bool) (connected : bool)
    : list Z * list nat * bool :=
  let '(sleeps, tried, c) := reconnect_loop ok (seq 0 3) connected in
  (sleeps, tried, negb c).

End Retry.

(** ** The dashboard's [WebSocketManager] (reconnection with back-off) *)
Module Reconnect.

Record ws_manager := WebSocketManager {
  reconnectAttempts : nat
}.

Definition maxReconnectAttempts : nat := 5.
Definition reconnectDelay : nat := 1000.

Inductive ws_event :=
| WsOpen
| WsClose (wasClean : bool).

(** One event on the current socket. An unclean close below the limit
    schedules a timer of [reconnectDelay * 2 ^ reconnectAttempts]; the
    timer's callback (which runs before the new socket can report
    anything) increments [reconnectAttempts] and connects again. *)
Definition on_ws_event (st : ws_manager) (ev : ws_event) : ws_manager * option nat :=
  match ev with
  | WsOpen => (WebSocketManager 0, None)
  | WsClose wasClean =>
      if negb wasClean && Nat.ltb (reconnectAttempts st) maxReconnectAttempts then
        (WebSocketManager (S (reconnectAttempts st)),
         Some (reconnectDelay * 2 ^ reconnectAttempts st))
      else (st, None)
  end.

(** The timers scheduled along a sequence of socket events. *)
Fixpoint run_ws (st : ws_manager) (evs : list ws_event) : list nat * ws_manager :=
  match evs with
  | [] => ([], st)
  | ev :: rest =>
      let '(st', d) := on_ws_event st ev in
      let '(ds, st'') := run_ws st' rest in
      (match d with Some t => t :: ds | None => ds end, st'')
  end.

End Reconnect.

(** ** The other token issuers *)
Module AuthExt.
Import Auth.

(** [AuthManager.generate_customer_token]; [RoomGrants] leaves [hidden]
    at its default [False]. *)
Definition generate_customer_token (room_name customer_id : string) : py_return access_token :=
  Returns (AccessToken customer_id (RoomGrants true room_name true true false)).

Record admin_metadata := AdminMetadata {
  role : string;
  monitor_type : string;
  permissions : list string
}.

Record monitoring_token := MonitoringToken {
  mt_token : access_token;
  mt_name : string;
  mt_metadata : admin_metadata
}.

(** [setup_admin_monitoring]. *)
Definition setup_admin_monitoring (admin_id room_name : string) : py_return monitoring_token :=
  Returns (MonitoringToken
             (AccessToken ("admin_" ++ admin_id)%string (RoomGrants true room_name true false true))
             "System Monitor"
             (AdminMetadata "admin" "supervisor" ["audio_monitor"; "transcript_view"])).

(** The [/api/get-token] endpoint: [room_name] and [participant_name] of
    the request ([""] when absent or empty), the two [uuid4()] values
    drawn, and whether each fallible step of the [try] block returns
    normally: building the token ([AccessToken(...)] and its [with_*]
    calls), [store_room_info], and [token.to_jwt()] (called while the
    response dict is built, after [store_room_info]). The
    [except Exception] branch turns any of their exceptions into an HTTP
    500. The second component is the room info [store_room_info] has
    recorded. *)
Inductive api_result (A : Type) :=
| ApiOk (v : A)
| HTTPException (status_code : nat).
Arguments ApiOk {A} v.
Arguments HTTPException {A} status_code.

Record token_response := TokenResponse {
  tr_token : access_token;
  tr_name : string;
  tr_room_name : string;
  tr_participant_identity : string
}.

Definition get_token (request_room_name request_participant_name : string)
    (uuid1 uuid2 : string) (token_ok store_room_info_ok to_jwt_ok : bool)
    : api_result token_response * option (string * string) :=
  let room_name := if String.eqb request_room_name "" then ("room_" ++ uuid1)%string
                   else request_room_name in
  let participant_name := if String.eqb request_participant_name "" then "Customer"
                          else request_participant_name in
  let token := AccessToken ("customer_" ++ uuid2)%string
                 (RoomGrants true room_name true true false) in
  if negb token_ok then (HTTPException 500, None)
  else if negb store_room_info_ok then (HTTPException 500, None)
  else if negb to_jwt_ok then (HTTPException 500, Some (room_name, participant_name))
  else (ApiOk (TokenResponse token participant_name room_name (identity token)),
        Some (room_name, participant_name)).

End AuthExt.

(** ** Dashboard helpers: [formatDuration] and [TranscriptViewer] *)
Module Js.
Local Open Scope Z_scope.

(** [Number.prototype.toString()] on an integer: decimal digits, with a
    leading ["-"] for a negative number. [Pos.size_nat p] bounds the
    number of digits. *)
Fixpoint digits_of (fuel : nat) (n : N) (acc : string) : string :=
  match fuel with
  | O => acc
  | S f =>
      let acc' := String (Ascii.ascii_of_N (48 + N.modulo n 10)) acc in
      if N.ltb n 10 then acc' else digits_of f (N.div n 10) acc'
  end.

Definition number_to_string (z : Z) : string :=
  match z with
  | Z0 => "0"
  | Zpos p => digits_of (Pos.size_nat p) (Npos p) ""
  | Zneg p => ("-" ++ digits_of (Pos.size_nat p) (Npos p) "")%string
  end.

Fixpoint zeros (n : nat) : string :=
  match n with O => "" | S k => ("0" ++ zeros k)%string end.

(** [s.padStart(2, '0')] *)
Definition padStart2 (s : string) : string :=
  (zeros (2 - String.length s) ++ s)%string.

(** [formatDuration(startTime)] with [Date.now()] = [now], both in
    milliseconds; [None] is [null]/[undefined], and [0] is falsy too.
    [Math.floor] of a quotient is [Z.div]; JavaScript's [%] takes the sign
    of the dividend, as [Z.rem] does. *)
Definition formatDuration (startTime : option Z) (now : Z) : string :=
  match startTime with
  | None | Some Z0 => "00m 00s"
  | Some start =>
      let duration := (now - start) / 1000 in
      let minutes := duration / 60 in
      let seconds := Z.rem duration 60 in
      (padStart2 (number_to_string minutes) ++ "m " ++
       padStart2 (number_to_string seconds) ++ "s")%string
  end.

End Js.

(** ** [TranscriptViewer.handleWebSocketMessage] *)
Module Viewer.
Import Js QArith Qround.

Record transcript_entry := TranscriptEntry {
  entry_id : Z;
  entry_timestamp : string;
  entry_speaker : string;
  entry_content : string;
  entry_confidence : Q;
  entry_isFinal : bool;
  entry_isAlert : bool
}.

(** A transcript event as carried in [data.event] and [data.history];
    [ev_id] is [None] when the event has no (truthy) [id]. *)
Record event_fields := EventFields {
  ev_id : option Z;
  ev_timestamp : string;
  ev_speaker : string;
  ev_content : string;
  ev_confidence : Q
}.

(** The fields of a parsed message that the handler reads. *)
Record ws_data := WsData {
  data_type : string;
  data_text : string;
  data_event : event_fields;
  data_history : list event_fields;
  data_timestamp : string;
  data_duration : Q
}.

Record viewer_state := ViewerState {
  transcript : list transcript_entry;
  interimText : string
}.

(** [Math.round]: the floor of [x + 1/2]. *)
Definition math_round (x : Q) : Z := Qfloor (x + (1 # 2)).

Definition silence_alert_content (duration : Q) : string :=
  ("⚠️ Prolonged silence detected (" ++ number_to_string (math_round duration) ++ "s)")%string.

Definition history_entry (now : Z) (e : event_fields) : transcript_entry :=
  TranscriptEntry (match ev_id e with Some i => if Z.eqb i 0 then now else i | None => now end)
    (ev_timestamp e) (ev_speaker e) (ev_content e) (ev_confidence e) true false.

(** One message, with [Date.now()] = [now]; the state after React has
    applied the queued updates. *)
Definition handleWebSocketMessage (now : Z) (data : ws_data) (st : viewer_state) : viewer_state :=
  if String.eqb (data_type data) "interim_transcript" then
    ViewerState (transcript st) (data_text data)
  else if String.eqb (data_type data) "final_transcript" then
    let e := data_event data in
    ViewerState (transcript st ++ [TranscriptEntry now (ev_timestamp e) (ev_speaker e)
                                     (ev_content e) (ev_confidence e) true false]) ""
  else if String.eqb (data_type data) "conversation_history" then
    ViewerState (map (history_entry now) (data_history data)) (interimText st)
  else if String.eqb (data_type data) "silence_alert" then
    ViewerState (transcript st ++ [TranscriptEntry now (data_timestamp data) "system"
                                     (silence_alert_content (data_duration data)) 1 true true])
                (interimText st)
  else st.

(** The ["silence_alert"] message the watchdog sends, as parsed here:
    ["duration"] is [total_seconds()] of the silence, ["timestamp"] the
    ISO time of the sweep; the fields it lacks are never read for this
    type. *)
Definition silence_alert_data (a : Health.silence_alert) (timestamp : string) : ws_data :=
  WsData "silence_alert" "" (EventFields None "" "" "" 0) [] timestamp
         (Health.alert_duration_us a # 1000000).

End Viewer.

(** ** Concrete inputs used by the witnesses and counterexamples *)
Module Scenarios.
Import Manager.

(** Two connected admins, both watching ["room-42"]. *)
Definition w_room42 : world :=
  World (<["admin-1" := 1]> (<["admin-2" := 2]> ∅))
        {[ "room-42" := {[ "admin-1"; "admin-2" ]} ]} [] 0.

Definition net_ok : network := fun _ => Channel SendOk 0.

(** ["admin-2"]'s websocket is closed. *)
Definition net_admin2_closed : network :=
  fun a => if String.eqb a "admin-2" then Channel SendConnectionClosed 0
           else Channel SendOk 0.

(** ["admin-1"]'s websocket is slow: each send takes 20 seconds. *)
Definition net_admin1_slow : network :=
  fun a => if String.eqb a "admin-1" then Channel SendOk 20 else Channel SendOk 0.

(** ["admin-1"]'s [send_json] raises an exception other than the two the
    loop catches (a [RuntimeError], say). *)
Definition net_admin1_broken : network :=
  fun a => if String.eqb a "admin-1" then Channel SendOtherError 0 else Channel SendOk 0.

(** ["admin-1"]'s websocket is closed and ["admin-2"]'s send raises an
    exception other than the two caught. *)
Definition net_admin_mixed : network :=
  fun a => if String.eqb a "admin-1" then Channel SendConnectionClosed 0
           else if String.eqb a "admin-2" then Channel SendOtherError 0
           else Channel SendOk 0.

(** ["admin-1"]'s send stalls for 40 seconds. *)
Definition net_admin1_stalled : network :=
  fun a => if String.eqb a "admin-1" then Channel SendOk 40 else Channel SendOk 0.

(** [get_last_activity_time] in microseconds: activity at 0, and again
    at 40 s. *)
Definition activity_until_40s (t : Z) : Z :=
  if (t <? 40000000)%Z then 0%Z else 40000000%Z.

(** An update whose ["conversation_id"] is the empty string. *)
Definition blank_update : message := Msg "conversation_update" (Some "") "status: active".

Definition hello : message := Msg "final_transcript" (Some "room-42") "customer: hello".
Definition bye : message := Msg "final_transcript" (Some "room-42") "customer: bye".
Definition interim : message := Msg "interim_transcript" (Some "room-42") "customer: hel".
Definition dashboard_notice : message := Msg "conversation_started" None "room-43".

(** Spec scenario 3 in microseconds: last activity at 0, sweeps every 5 s
    up to 45 s; activity resumes at 46 s; sweeps every 5 s from 50 s to
    90 s with no further activity. *)
Definition room42_ticks : list (Z * Z) :=
  map (fun k : Z => (k * 5000000, 0)%Z) [1; 2; 3; 4; 5; 6; 7; 8; 9]%Z ++
  map (fun k : Z => (k * 5000000, 46000000)%Z) [10; 11; 12; 13; 14; 15; 16; 17; 18]%Z.

Definition final_hello : Monitor.conversation_event :=
  Monitor.ConversationEvent "final_transcript" "customer: hello".

(** A monitor whose conversation has already ended. *)
Definition ended_monitor : Monitor.conversation_monitor :=
  Monitor.ConversationMonitor "room-42" [] "ended" [] [].

End Scenarios.

(** * Facts about [AdminWebSocketManager] *)
Module ManagerFacts.
Import Manager.

Lemma received_add_outbox (a b : string) (m : message) (w : world) :
  received b (add_outbox (a, m) w) = received b w ++ (if decide (a = b) then [m] else []).
Proof.
  unfold received, add_outbox; simpl.
  rewrite filter_app, fmap_app. f_equal.
  rewrite filter_cons, filter_nil; simpl.
  by case_decide.
Qed.

Lemma send_to_targets_frame (net : network) (m : message) (targets : list string) :
  forall (w : world) (d : list string),
    let st := py_state (send_to_targets net m targets w d) in
    admin_connections st.1 = admin_connections w /\
    conversation_subscriptions st.1 = conversation_subscriptions w /\
    exists new, outbox st.1 = outbox w ++ new /\
      Forall (fun p : string * message => p.2 = m /\ p.1 ∈ targets) new.
Proof.
  induction targets as [|a rest IH]; intros w d; simpl.
  - split; [done|]. split; [done|]. exists []. by rewrite app_nil_r.
  - destruct (admin_connections w !! a) as [ws|] eqn:Ha.
    + unfold send_json.
      destruct (send_result (net a)) eqn:Hr; simpl.
      * destruct (IH (add_outbox (a, m) (set_clock (clock w + send_latency (net a)) w)) d)
          as (Hc & Hs & new & Ho & Hf).
        split; [done|]. split; [done|].
        exists ((a, m) :: new). rewrite Ho. simpl. rewrite <- app_assoc. split; [done|].
        constructor; [simpl; split; [done|set_solver]|].
        eapply Forall_impl; [exact Hf|]. intros p [? ?]; split; [done|set_solver].
      * destruct (IH (set_clock (clock w + send_latency (net a)) w) (d ++ [a]))
          as (Hc & Hs & new & Ho & Hf).
        split; [done|]. split; [done|]. exists new. split; [done|].
        eapply Forall_impl; [exact Hf|]. intros p [? ?]; split; [done|set_solver].
      * destruct (IH (set_clock (clock w + send_latency (net a)) w) (d ++ [a]))
          as (Hc & Hs & new & Ho & Hf).
        split; [done|]. split; [done|]. exists new. split; [done|].
        eapply Forall_impl; [exact Hf|]. intros p [? ?]; split; [done|set_solver].
      * split; [done|]. split; [done|]. exists []. by rewrite app_nil_r.
    + destruct (IH w d) as (Hc & Hs & new & Ho & Hf).
      split; [done|]. split; [done|]. exists new. split; [done|].
      eapply Forall_impl; [exact Hf|]. intros p [? ?]; split; [done|set_solver].
Qed.


Lemma send_to_targets_ok (net : network) (m : message) (targets : list string) :
  forall (w : world) (d : list string),
    NoDup targets ->
    (forall a, a ∈ targets -> send_result (net a) <> SendOtherError) ->
    exists w' d',
      send_to_targets net m targets w d = PyOk (w', d') /\
      admin_connections w' = admin_connections w /\
      conversation_subscriptions w' = conversation_subscriptions w /\
      clock w' = clock w + sum_list_with (fun a => send_latency (net a))
                   (filter (fun a => is_Some (admin_connections w !! a)) targets) /\
      (forall b, received b w' = received b w ++
         (if decide (b ∈ targets /\ is_Some (admin_connections w !! b) /\
                     send_result (net b) = SendOk) then [m] else [])) /\
      (forall b, b ∈ d' <-> b ∈ d \/
         (b ∈ targets /\ is_Some (admin_connections w !! b) /\
          transport_failure (send_result (net b)))).
Proof.
  induction targets as [|a rest IH]; intros w d Hnd Hno; cbn [send_to_targets].
  - exists w, d. split; [done|]. split; [done|]. split; [done|].
    split; [simpl; lia|]. split.
    + intros b. rewrite decide_False; [by rewrite app_nil_r|].
      intros [Hb _]. by apply elem_of_nil in Hb.
    + intros b. split; [by left|].
      intros [Hb|[Hb _]]; [done|]. by apply elem_of_nil in Hb.
  - apply NoDup_cons in Hnd as [Hnot Hnd].
    assert (Hno' : forall x, x ∈ rest -> send_result (net x) <> SendOtherError)
      by (intros x Hx; apply Hno; set_solver).
    destruct (admin_connections w !! a) as [ws|] eqn:Ha.
    + rewrite filter_cons, decide_True by (rewrite Ha; eauto). cbn [sum_list_with].
      unfold send_json.
      destruct (send_result (net a)) eqn:Hr.
      * destruct (IH (add_outbox (a, m) (set_clock (clock w + send_latency (net a)) w)) d Hnd Hno')
          as (w' & d' & Hrun & Hc & Hs & Hclk & Hrcv & Hd).
        exists w', d'.
        cbn [admin_connections conversation_subscriptions clock add_outbox set_clock] in *. split; [done|]. split; [done|]. split; [done|].
        split; [rewrite Hclk; lia|]. split.
        -- intros b. rewrite Hrcv, received_add_outbox. unfold set_clock.
           rewrite <- app_assoc. f_equal.
           destruct (decide (a = b)) as [<-|Hab].
           ++ assert (Hsa : is_Some (admin_connections w !! a)) by (rewrite Ha; eauto).
              repeat case_decide; simpl; try done; exfalso; naive_solver set_solver.
           ++ repeat case_decide; simpl; try done; exfalso; set_solver.
        -- intros b. rewrite Hd. split.
           ++ intros [Hb|(Hb1 & Hb2 & Hb3)]; [by left|right; split; [set_solver|done]].
           ++ intros [Hb|(Hb1 & Hb2 & Hb3)]; [by left|].
              apply elem_of_cons in Hb1 as [->|Hb1]; [|right; done].
              exfalso. rewrite Hr in Hb3. destruct Hb3; discriminate.
      * destruct (IH (set_clock (clock w + send_latency (net a)) w) (d ++ [a]) Hnd Hno')
          as (w' & d' & Hrun & Hc & Hs & Hclk & Hrcv & Hd).
        exists w', d'.
        cbn [admin_connections conversation_subscriptions clock add_outbox set_clock] in *. split; [done|]. split; [done|]. split; [done|].
        split; [rewrite Hclk; lia|]. split.
        -- intros b. rewrite Hrcv. unfold received, set_clock; simpl. f_equal.
           destruct (decide (a = b)) as [<-|Hab].
           ++ rewrite !decide_False; [done| |]; [rewrite Hr; intros (_ & _ & ?); discriminate|tauto].
           ++ repeat case_decide; try done; exfalso; set_solver.
        -- intros b. rewrite Hd, elem_of_app, list_elem_of_singleton. split.
           ++ intros [[Hb| ->]|(Hb1 & Hb2 & Hb3)]; [by left| |right; split; [set_solver|done]].
              right. split; [set_solver|]. rewrite Ha, Hr. split; [eauto|]. by left.
           ++ intros [Hb|(Hb1 & Hb2 & Hb3)]; [by left; left|].
              apply elem_of_cons in Hb1 as [->|Hb1]; [by left; right|right; done].
      * destruct (IH (set_clock (clock w + send_latency (net a)) w) (d ++ [a]) Hnd Hno')
          as (w' & d' & Hrun & Hc & Hs & Hclk & Hrcv & Hd).
        exists w', d'.
        cbn [admin_connections conversation_subscriptions clock add_outbox set_clock] in *. split; [done|]. split; [done|]. split; [done|].
        split; [rewrite Hclk; lia|]. split.
        -- intros b. rewrite Hrcv. unfold received, set_clock; simpl. f_equal.
           destruct (decide (a = b)) as [<-|Hab].
           ++ rewrite !decide_False; [done| |]; [rewrite Hr; intros (_ & _ & ?); discriminate|tauto].
           ++ repeat case_decide; try done; exfalso; set_solver.
        -- intros b. rewrite Hd, elem_of_app, list_elem_of_singleton. split.
           ++ intros [[Hb| ->]|(Hb1 & Hb2 & Hb3)]; [by left| |right; split; [set_solver|done]].
              right. split; [set_solver|]. rewrite Ha, Hr. split; [eauto|]. by right.
           ++ intros [Hb|(Hb1 & Hb2 & Hb3)]; [by left; left|].
              apply elem_of_cons in Hb1 as [->|Hb1]; [by left; right|right; done].
      * exfalso. apply (Hno a); [set_solver|done].
    + rewrite filter_cons, decide_False by (rewrite Ha; apply is_Some_None).
      destruct (IH w d Hnd Hno') as (w' & d' & Hrun & Hc & Hs & Hclk & Hrcv & Hd).
      exists w', d'. split; [done|]. split; [done|]. split; [done|]. split; [done|]. split.
      * intros b. rewrite Hrcv. f_equal.
        destruct (decide (a = b)) as [<-|Hab].
        -- rewrite !decide_False; [done| |]; [rewrite Ha; intros (_ & Hs' & _); by apply is_Some_None in Hs'|tauto].
        -- repeat case_decide; try done; exfalso; set_solver.
      * intros b. rewrite Hd. split.
        -- intros [Hb|(Hb1 & Hb2 & Hb3)]; [by left|right; split; [set_solver|done]].
        -- intros [Hb|(Hb1 & Hb2 & Hb3)]; [by left|].
           apply elem_of_cons in Hb1 as [->|Hb1]; [|right; done].
           rewrite Ha in Hb2. by apply is_Some_None in Hb2.
Qed.

(** ** [remove_admin] *)

Lemma remove_subscription_step_lookup (a : string) (m : gmap string (gset string)) (k j : string) :
  remove_subscription_step a m k !! j =
  if decide (j = k) then m !! k ≫= prune_subscribers a else m !! j.
Proof.
  unfold remove_subscription_step, prune_subscribers.
  destruct (decide (j = k)) as [->|Hjk].
  - destruct (m !! k) as [s|] eqn:Hk; simpl.
    + case_decide; by simplify_map_eq.
    + by rewrite lookup_delete_eq.
  - destruct (m !! k) as [s|]; [case_decide|]; by simplify_map_eq.
Qed.

Lemma foldl_remove_subscription_lookup (a : string) (ks : list string) :
  NoDup ks -> forall (m : gmap string (gset string)) (j : string),
  foldl (remove_subscription_step a) m ks !! j =
  if decide (j ∈ ks) then m !! j ≫= prune_subscribers a else m !! j.
Proof.
  induction ks as [|k ks IH]; intros Hnd m j; cbn [foldl].
  - rewrite decide_False; [done|]. by intros ?%elem_of_nil.
  - apply NoDup_cons in Hnd as [Hk Hnd].
    rewrite IH by done. rewrite !remove_subscription_step_lookup.
    destruct (decide (j = k)) as [->|Hjk].
    + rewrite decide_False by done. rewrite decide_True; [done|]. set_solver.
    + case_decide as Hin; case_decide as Hin'; try done.
      * exfalso. apply Hin'. set_solver.
      * exfalso. apply elem_of_cons in Hin' as [?|?]; tauto.
Qed.

Lemma remove_from_subscriptions_lookup (a : string) (subs : gmap string (gset string)) (j : string) :
  remove_from_subscriptions a subs !! j = subs !! j ≫= prune_subscribers a.
Proof.
  unfold remove_from_subscriptions.
  rewrite foldl_remove_subscription_lookup by apply NoDup_elements.
  case_decide as Hin; [done|].
  rewrite elem_of_elements, not_elem_of_dom in Hin. by rewrite Hin.
Qed.

Lemma prune_subscribers_Some (a : string) (s s' : gset string) :
  prune_subscribers a s = Some s' -> s' = s ∖ {[a]} /\ s' <> ∅.
Proof. unfold prune_subscribers. case_decide; intros Heq; inversion Heq; subst; done. Qed.

Lemma remove_admin_connections (a : string) (w : world) :
  admin_connections (remove_admin a w) = delete a (admin_connections w).
Proof.
  unfold remove_admin. case_decide as Hin; [done|]. simpl.
  rewrite delete_id; [done|]. by apply not_elem_of_dom.
Qed.

Lemma remove_admin_subscriptions (a : string) (w : world) :
  conversation_subscriptions (remove_admin a w) =
  remove_from_subscriptions a (conversation_subscriptions w).
Proof. unfold remove_admin. by case_decide. Qed.

Lemma remove_admin_outbox (a : string) (w : world) :
  outbox (remove_admin a w) = outbox w /\ clock (remove_admin a w) = clock w.
Proof. unfold remove_admin. by case_decide. Qed.

Lemma remove_admin_gone (a : string) (w : world) (c : string) (s : gset string) :
  conversation_subscriptions (remove_admin a w) !! c = Some s -> a ∉ s.
Proof.
  rewrite remove_admin_subscriptions, remove_from_subscriptions_lookup.
  destruct (conversation_subscriptions w !! c) as [s0|]; simpl; [|done].
  intros (-> & _)%prune_subscribers_Some. set_solver.
Qed.

Lemma remove_admin_shrinks (a : string) (w : world) (c : string) (s' : gset string) :
  conversation_subscriptions (remove_admin a w) !! c = Some s' ->
  exists s, conversation_subscriptions w !! c = Some s /\ s' ⊆ s.
Proof.
  rewrite remove_admin_subscriptions, remove_from_subscriptions_lookup.
  destruct (conversation_subscriptions w !! c) as [s0|]; simpl; [|done].
  intros (-> & _)%prune_subscribers_Some. exists s0. split; [done|set_solver].
Qed.

Lemma remove_admin_keeps (a b : string) (w : world) (c : string) :
  b <> a -> b ∈ default ∅ (conversation_subscriptions w !! c) ->
  b ∈ default ∅ (conversation_subscriptions (remove_admin a w) !! c).
Proof.
  intros Hba. rewrite remove_admin_subscriptions, remove_from_subscriptions_lookup.
  destruct (conversation_subscriptions w !! c) as [s0|]; simpl; [|set_solver].
  intros Hb. unfold prune_subscribers. case_decide as He; simpl.
  - exfalso. assert (b ∈ s0 ∖ {[a]}) by set_solver. set_solver.
  - set_solver.
Qed.

(** ** Removing the disconnected admins *)

Lemma remove_admins_outbox (l : list string) : forall (w : world),
  outbox (remove_admins l w) = outbox w /\ clock (remove_admins l w) = clock w.
Proof.
  induction l as [|a l IH]; intros w; [done|]. simpl.
  destruct (IH (remove_admin a w)) as [-> ->]. apply remove_admin_outbox.
Qed.

Lemma remove_admins_received (l : list string) (w : world) (b : string) :
  received b (remove_admins l w) = received b w.
Proof. unfold received. by rewrite (proj1 (remove_admins_outbox l w)). Qed.


Lemma remove_admins_detached (l : list string) : forall (w : world) (b : string),
  detached b w -> detached b (remove_admins l w).
Proof.
  induction l as [|a l IH]; intros w b [Hc Hs]; [done|]. simpl. apply IH. split.
  - rewrite remove_admin_connections. destruct (decide (a = b)) as [->|Hab].
    + by rewrite lookup_delete_eq.
    + by rewrite lookup_delete_ne.
  - intros c s' Hs'. apply remove_admin_shrinks in Hs' as (s0 & H0 & Hsub).
    specialize (Hs c s0 H0). set_solver.
Qed.

Lemma remove_admins_removed (l : list string) : forall (w : world) (b : string),
  b ∈ l -> detached b (remove_admins l w).
Proof.
  induction l as [|a l IH]; intros w b Hb; [by apply elem_of_nil in Hb|]. simpl.
  destruct (decide (b ∈ l)) as [Hl|Hl]; [by apply IH|].
  apply elem_of_cons in Hb as [->|Hb]; [|done].
  apply remove_admins_detached. split.
  - by rewrite remove_admin_connections, lookup_delete_eq.
  - apply remove_admin_gone.
Qed.

Lemma remove_admins_keeps (l : list string) : forall (w : world) (b : string),
  b ∉ l ->
  admin_connections (remove_admins l w) !! b = admin_connections w !! b /\
  forall c, b ∈ default ∅ (conversation_subscriptions w !! c) ->
            b ∈ default ∅ (conversation_subscriptions (remove_admins l w) !! c).
Proof.
  induction l as [|a l IH]; intros w b Hb; [done|]. simpl.
  assert (Hba : b <> a) by (intros ->; apply Hb; set_solver).
  assert (Hl : b ∉ l) by (intros ?; apply Hb; set_solver).
  destruct (IH (remove_admin a w) b Hl) as [Hc Hs]. split.
  - rewrite Hc, remove_admin_connections. by rewrite lookup_delete_ne.
  - intros c Hin. apply Hs. by apply remove_admin_keeps.
Qed.

(** ** [broadcast_to_admins] when no send raises an unexpected exception *)

Lemma broadcast_to_admins_ok (net : network) (m : message) (w : world) :
  (forall a, a ∈ target_admins w m -> send_result (net a) <> SendOtherError) ->
  exists w',
    broadcast_to_admins net m w = PyOk w' /\
    clock w' = clock w + sum_list_with (fun a => send_latency (net a))
                 (filter (fun a => is_Some (admin_connections w !! a))
                    (elements (target_admins w m))) /\
    (forall b, received b w' = received b w ++
       (if decide (b ∈ target_admins w m /\ is_Some (admin_connections w !! b) /\
                   send_result (net b) = SendOk) then [m] else [])) /\
    (forall b, b ∈ target_admins w m -> is_Some (admin_connections w !! b) ->
       transport_failure (send_result (net b)) -> detached b w') /\
    (forall b, ~ (b ∈ target_admins w m /\ is_Some (admin_connections w !! b) /\
                  transport_failure (send_result (net b))) ->
       admin_connections w' !! b = admin_connections w !! b /\
       forall c, b ∈ default ∅ (conversation_subscriptions w !! c) ->
                 b ∈ default ∅ (conversation_subscriptions w' !! c)).
Proof.
  intros Hno. unfold broadcast_to_admins.
  destruct (send_to_targets_ok net m (elements (target_admins w m)) w []
              (NoDup_elements _)) as (w1 & d & Hrun & Hc & Hs & Hclk & Hrcv & Hd).
  { intros a Ha. apply Hno. by apply elem_of_elements. }
  rewrite Hrun. exists (remove_admins d w1). split; [done|]. split.
  { by rewrite (proj2 (remove_admins_outbox d w1)). }
  split.
  { intros b. rewrite remove_admins_received, Hrcv. f_equal.
    destruct (decide (b ∈ target_admins w m)) as [Hin|Hin].
    - assert (b ∈ elements (target_admins w m)) by (by apply elem_of_elements).
      repeat case_decide; tauto.
    - assert (b ∉ elements (target_admins w m)) by (by rewrite elem_of_elements).
      repeat case_decide; tauto. }
  split.
  { intros b Hb Hcon Hf. apply remove_admins_removed. apply Hd. right.
    split; [by apply elem_of_elements|done]. }
  intros b Hnot. destruct (remove_admins_keeps d w1 b) as [Hc' Hs'].
  { rewrite Hd. intros [Hb|(Hb1 & Hb2 & Hb3)]; [by apply elem_of_nil in Hb|].
    apply Hnot. split; [by apply elem_of_elements|done]. }
  split; [by rewrite Hc', Hc|]. intros c Hb. apply Hs'. by rewrite Hs.
Qed.

Lemma world_eq (w1 w2 : world) :
  admin_connections w1 = admin_connections w2 ->
  conversation_subscriptions w1 = conversation_subscriptions w2 ->
  outbox w1 = outbox w2 -> clock w1 = clock w2 -> w1 = w2.
Proof. destruct w1, w2; simpl; intros; subst; done. Qed.

Lemma prune_subscribers_twice (a : string) (o : option (gset string)) :
  (o ≫= prune_subscribers a) ≫= prune_subscribers a = o ≫= prune_subscribers a.
Proof.
  destruct o as [s|]; simpl; [|done].
  destruct (prune_subscribers a s) as [s'|] eqn:Hp; simpl; [|done].
  apply prune_subscribers_Some in Hp as [-> Hne].
  unfold prune_subscribers.
  assert (Heq : s ∖ {[a]} ∖ {[a]} = s ∖ {[a]}) by set_solver.
  rewrite Heq. by rewrite decide_False.
Qed.

Lemma subscribe_keeps_nonempty (a c : string) (w : world) :
  subscriptions_nonempty w -> subscriptions_nonempty (subscribe_to_conversation a c w).
Proof.
  intros Hne c' s. unfold subscribe_to_conversation; simpl.
  destruct (decide (c' = c)) as [->|Hc].
  - rewrite lookup_insert_eq. intros [= <-]. set_solver.
  - rewrite lookup_insert_ne by done. apply Hne.
Qed.

Lemma remove_admin_nonempty (a : string) (w : world) :
  subscriptions_nonempty (remove_admin a w).
Proof.
  intros c s. rewrite remove_admin_subscriptions, remove_from_subscriptions_lookup.
  destruct (conversation_subscriptions w !! c) as [s0|]; simpl; [|done].
  intros Hp. by apply prune_subscribers_Some in Hp as [_ ?].
Qed.

(** ** [broadcast_to_admins] in general, sends raising anything *)

Lemma attempted_sub (net : network) (conns : gmap string websocket) (targets : list string)
    (b : string) :
  b ∈ (attempted net conns targets).1 -> b ∈ targets /\ is_Some (conns !! b).
Proof.
  induction targets as [|a rest IH]; simpl; [set_solver|].
  destruct (conns !! a) eqn:Ha.
  - case_decide; simpl.
    + intros ->%list_elem_of_singleton. rewrite Ha. split; [set_solver|by eexists].
    + intros [->|Hb]%elem_of_cons; [rewrite Ha; split; [set_solver|by eexists]|].
      destruct (IH Hb). split; [set_solver|done].
  - intros Hb. destruct (IH Hb). split; [set_solver|done].
Qed.

Lemma attempted_no_error (net : network) (conns : gmap string websocket) (targets : list string) :
  (forall a, a ∈ targets -> is_Some (conns !! a) -> send_result (net a) <> SendOtherError) ->
  attempted net conns targets = (filter (fun a => is_Some (conns !! a)) targets, false).
Proof.
  induction targets as [|a rest IH]; intros Hno; [done|]. simpl.
  rewrite filter_cons.
  rewrite IH by (intros x Hx; apply Hno; set_solver).
  destruct (conns !! a) eqn:Ha.
  - rewrite (decide_False (P := send_result (net a) = SendOtherError))
      by (apply Hno; [set_solver|by rewrite Ha]).
    rewrite decide_True by (by eexists). reflexivity.
  - rewrite decide_False by (by intros [? ?]). reflexivity.
Qed.

Lemma attempted_split (net : network) (conns : gmap string websocket) (pre post : list string)
    (b : string) :
  is_Some (conns !! b) -> send_result (net b) = SendOtherError ->
  (forall a, a ∈ pre -> is_Some (conns !! a) -> send_result (net a) <> SendOtherError) ->
  attempted net conns (pre ++ b :: post) = (filter (fun a => is_Some (conns !! a)) pre ++ [b], true).
Proof.
  intros [wb Hb] Hbe. induction pre as [|a pre IH]; intros Hno; simpl.
  - rewrite Hb. rewrite decide_True by done. reflexivity.
  - rewrite filter_cons. rewrite IH by (intros x Hx; apply Hno; set_solver).
    destruct (conns !! a) eqn:Ha.
    + rewrite (decide_False (P := send_result (net a) = SendOtherError))
        by (apply Hno; [set_solver|by rewrite Ha]).
      rewrite decide_True by (by eexists). reflexivity.
    + rewrite decide_False by (by intros [? ?]). reflexivity.
Qed.

Lemma send_to_targets_run (net : network) (m : message) (targets : list string) :
  forall (w : world) (d : list string),
    NoDup targets ->
    exists w' d',
      send_to_targets net m targets w d =
        (if (attempted net (admin_connections w) targets).2
         then PyRaise OtherException (w', d') else PyOk (w', d')) /\
      admin_connections w' = admin_connections w /\
      conversation_subscriptions w' = conversation_subscriptions w /\
      clock w' = clock w + sum_list_with (fun a => send_latency (net a))
                             (attempted net (admin_connections w) targets).1 /\
      (forall b, received b w' = received b w ++
         (if decide (b ∈ (attempted net (admin_connections w) targets).1 /\
                     send_result (net b) = SendOk) then [m] else [])) /\
      (forall b, b ∈ d' <-> b ∈ d \/
         (b ∈ (attempted net (admin_connections w) targets).1 /\
          transport_failure (send_result (net b)))).
Proof.
  induction targets as [|a rest IH]; intros w d Hnd; cbn [send_to_targets attempted].
  - exists w, d. cbn [fst snd sum_list_with]. split; [done|]. split; [done|]. split; [done|].
    split; [lia|].
    split.
    + intros b. rewrite decide_False; [by rewrite app_nil_r|]. intros [Hb _].
      by apply elem_of_nil in Hb.
    + intros b. split; [by left|]. intros [Hb|[Hb _]]; [done|]. by apply elem_of_nil in Hb.
  - apply NoDup_cons in Hnd as [Hnot Hnd].
    assert (Hna : a ∉ (attempted net (admin_connections w) rest).1)
      by (intros H; apply Hnot, (attempted_sub _ _ _ _ H)).
    set (r := attempted net (admin_connections w) rest) in *.
    destruct (admin_connections w !! a) as [ws|] eqn:Ha.
    + unfold send_json. destruct (send_result (net a)) eqn:Hr.
      * rewrite decide_False by discriminate. cbn [fst snd].
        destruct (IH (add_outbox (a, m) (set_clock (clock w + send_latency (net a)) w)) d Hnd)
          as (w' & d' & Hrun & Hc & Hs & Hclk & Hrcv & Hd).
        cbn [admin_connections conversation_subscriptions clock add_outbox set_clock] in *.
        fold r in Hrun, Hclk, Hrcv, Hd.
        exists w', d'. split; [done|]. split; [done|]. split; [done|].
        split; [cbn [sum_list_with]; rewrite Hclk; lia|]. split.
        -- intros b. rewrite Hrcv, received_add_outbox. unfold set_clock.
           rewrite <- app_assoc. f_equal.
           destruct (decide (a = b)) as [<-|Hab].
           ++ assert (Hin : a ∈ a :: r.1) by set_solver.
              repeat case_decide; simpl; try done; exfalso; tauto.
           ++ assert (Hiff : b ∈ a :: r.1 <-> b ∈ r.1) by set_solver.
              repeat case_decide; simpl; try done; exfalso; tauto.
        -- intros b. rewrite Hd, elem_of_cons. split.
           ++ intros [Hb|[Hb Ht]]; [by left|right; split; [by right|done]].
           ++ intros [Hb|[[->|Hb] Ht]]; [by left| |right; split; done].
              exfalso. rewrite Hr in Ht. destruct Ht; discriminate.
      * rewrite decide_False by discriminate. cbn [fst snd].
        destruct (IH (set_clock (clock w + send_latency (net a)) w) (d ++ [a]) Hnd)
          as (w' & d' & Hrun & Hc & Hs & Hclk & Hrcv & Hd).
        cbn [admin_connections conversation_subscriptions clock set_clock] in *.
        fold r in Hrun, Hclk, Hrcv, Hd.
        exists w', d'. split; [done|]. split; [done|]. split; [done|].
        split; [cbn [sum_list_with]; rewrite Hclk; lia|]. split.
        -- intros b. rewrite Hrcv. unfold set_clock. f_equal.
           destruct (decide (a = b)) as [<-|Hab].
           ++ rewrite Hr. repeat case_decide; simpl; try done; exfalso; naive_solver.
           ++ assert (Hiff : b ∈ a :: r.1 <-> b ∈ r.1) by set_solver.
              repeat case_decide; simpl; try done; exfalso; tauto.
        -- intros b. rewrite Hd, elem_of_app, list_elem_of_singleton, elem_of_cons. split.
           ++ intros [[Hb| ->]|[Hb Ht]]; [by left| |right; split; [by right|done]].
              right. split; [by left|]. rewrite Hr. by left.
           ++ intros [Hb|[[->|Hb] Ht]]; [by left; left|by left; right|right; split; done].
      * rewrite decide_False by discriminate. cbn [fst snd].
        destruct (IH (set_clock (clock w + send_latency (net a)) w) (d ++ [a]) Hnd)
          as (w' & d' & Hrun & Hc & Hs & Hclk & Hrcv & Hd).
        cbn [admin_connections conversation_subscriptions clock set_clock] in *.
        fold r in Hrun, Hclk, Hrcv, Hd.
        exists w', d'. split; [done|]. split; [done|]. split; [done|].
        split; [cbn [sum_list_with]; rewrite Hclk; lia|]. split.
        -- intros b. rewrite Hrcv. unfold set_clock. f_equal.
           destruct (decide (a = b)) as [<-|Hab].
           ++ rewrite Hr. repeat case_decide; simpl; try done; exfalso; naive_solver.
           ++ assert (Hiff : b ∈ a :: r.1 <-> b ∈ r.1) by set_solver.
              repeat case_decide; simpl; try done; exfalso; tauto.
        -- intros b. rewrite Hd, elem_of_app, list_elem_of_singleton, elem_of_cons. split.
           ++ intros [[Hb| ->]|[Hb Ht]]; [by left| |right; split; [by right|done]].
              right. split; [by left|]. rewrite Hr. by right.
           ++ intros [Hb|[[->|Hb] Ht]]; [by left; left|by left; right|right; split; done].
      * rewrite decide_True by done. cbn [fst snd].
        exists (set_clock (clock w + send_latency (net a)) w), d.
        split; [done|]. split; [done|]. split; [done|].
        split; [cbn [sum_list_with set_clock clock]; lia|]. split.
        -- intros b. rewrite decide_False; [by rewrite app_nil_r|].
           intros [->%list_elem_of_singleton Hb]. congruence.
        -- intros b. split; [by left|]. intros [Hb|[->%list_elem_of_singleton Ht]]; [done|].
           exfalso. rewrite Hr in Ht. destruct Ht; discriminate.
    + destruct (IH w d Hnd) as (w' & d' & Hrun & Hc & Hs & Hclk & Hrcv & Hd).
      exists w', d'. repeat split; try done.
      * intros Hb. apply Hd in Hb. done.
      * intros Hb. by apply Hd.
Qed.

Lemma broadcast_to_admins_run (net : network) (m : message) (w : world) :
  let att := attempted net (admin_connections w) (elements (target_admins w m)) in
  exists w',
    broadcast_to_admins net m w = (if att.2 then PyRaise OtherException w' else PyOk w') /\
    clock w' = clock w + sum_list_with (fun a => send_latency (net a)) att.1 /\
    (forall b, received b w' = received b w ++
       (if decide (b ∈ att.1 /\ send_result (net b) = SendOk) then [m] else [])) /\
    (att.2 = true -> admin_connections w' = admin_connections w /\
                     conversation_subscriptions w' = conversation_subscriptions w) /\
    (att.2 = false ->
       (forall b, b ∈ att.1 -> transport_failure (send_result (net b)) -> detached b w') /\
       (forall b, ~ (b ∈ att.1 /\ transport_failure (send_result (net b))) ->
          admin_connections w' !! b = admin_connections w !! b /\
          forall c, b ∈ default ∅ (conversation_subscriptions w !! c) ->
                    b ∈ default ∅ (conversation_subscriptions w' !! c))).
Proof.
  cbv zeta. unfold broadcast_to_admins.
  destruct (send_to_targets_run net m (elements (target_admins w m)) w [] (NoDup_elements _))
    as (w1 & d & Hrun & Hc & Hs & Hclk & Hrcv & Hd).
  rewrite Hrun.
  destruct (attempted net (admin_connections w) (elements (target_admins w m))) as [att ab].
  cbn [fst snd] in *. destruct ab.
  - exists w1. split; [done|]. split; [done|]. split; [done|]. split; [done|]. discriminate.
  - exists (remove_admins d w1). split; [done|].
    split; [by rewrite (proj2 (remove_admins_outbox d w1))|].
    split; [intros b; by rewrite remove_admins_received, Hrcv|].
    split; [discriminate|]. intros _. split.
    + intros b Hb Ht. apply remove_admins_removed. apply Hd. by right.
    + intros b Hnot. destruct (remove_admins_keeps d w1 b) as [Hc' Hs'].
      { rewrite Hd. intros [Hb|Hb]; [by apply elem_of_nil in Hb|done]. }
      split; [by rewrite Hc', Hc|]. intros c Hb. apply Hs'. by rewrite Hs.
Qed.

(** The two cases of a [broadcast_to_admins] call, read off its target
    set: every connected target's send returns or raises one of the two
    caught exceptions; or the loop reaches a connected target [b] whose
    send raises something else, after the targets [pre]. *)
Lemma broadcast_to_admins_no_error (net : network) (m : message) (w : world) :
  (forall a, a ∈ target_admins w m -> is_Some (admin_connections w !! a) ->
     send_result (net a) <> SendOtherError) ->
  exists w',
    broadcast_to_admins net m w = PyOk w' /\
    clock w' = clock w + sum_list_with (fun a => send_latency (net a))
                 (filter (fun a => is_Some (admin_connections w !! a))
                    (elements (target_admins w m))) /\
    (forall b, received b w' = received b w ++
       (if decide (b ∈ target_admins w m /\ is_Some (admin_connections w !! b) /\
                   send_result (net b) = SendOk) then [m] else [])) /\
    (forall b, b ∈ target_admins w m -> is_Some (admin_connections w !! b) ->
       transport_failure (send_result (net b)) -> detached b w').
Proof.
  intros Hno.
  pose proof (attempted_no_error net (admin_connections w) (elements (target_admins w m))) as Hatt.
  destruct (broadcast_to_admins_run net m w) as (w' & Hb & Hclk & Hrcv & _ & Hok).
  cbv zeta in Hb, Hclk, Hrcv, Hok.
  rewrite Hatt in Hb, Hclk, Hrcv, Hok by (intros a Ha; apply Hno; by apply elem_of_elements in Ha).
  cbn [fst snd] in *. destruct (Hok eq_refl) as [Hdet _].
  exists w'. split; [done|]. split; [done|]. split.
  - intros b. rewrite Hrcv. f_equal. apply decide_ext.
    rewrite list_elem_of_filter, elem_of_elements. tauto.
  - intros b Hb' Hc Ht. apply Hdet; [|done].
    rewrite list_elem_of_filter, elem_of_elements. done.
Qed.

Lemma broadcast_to_admins_other_error (net : network) (m : message) (w : world)
    (pre post : list string) (b : string) :
  elements (target_admins w m) = pre ++ b :: post ->
  is_Some (admin_connections w !! b) -> send_result (net b) = SendOtherError ->
  (forall a, a ∈ pre -> is_Some (admin_connections w !! a) -> send_result (net a) <> SendOtherError) ->
  exists w',
    broadcast_to_admins net m w = PyRaise OtherException w' /\
    admin_connections w' = admin_connections w /\
    conversation_subscriptions w' = conversation_subscriptions w /\
    clock w' = clock w + sum_list_with (fun a => send_latency (net a))
                 (filter (fun a => is_Some (admin_connections w !! a)) pre) + send_latency (net b) /\
    (forall B, received B w' = received B w ++
       (if decide (B ∈ pre /\ is_Some (admin_connections w !! B) /\ send_result (net B) = SendOk)
        then [m] else [])).
Proof.
  intros Hel Hb Hbe Hpre.
  destruct (broadcast_to_admins_run net m w) as (w' & Hbc & Hclk & Hrcv & Hab & _).
  cbv zeta in Hbc, Hclk, Hrcv, Hab.
  rewrite Hel, (attempted_split net _ pre post b Hb Hbe Hpre) in Hbc, Hclk, Hrcv, Hab.
  cbn [fst snd] in *. destruct (Hab eq_refl) as [Hc Hs].
  exists w'. split; [done|]. split; [done|]. split; [done|]. split.
  - rewrite Hclk, sum_list_with_app. cbn [sum_list_with]. lia.
  - intros B. rewrite Hrcv. f_equal. apply decide_ext.
    rewrite elem_of_app, list_elem_of_filter, list_elem_of_singleton.
    split.
    + intros [[[HB1 HB2]| ->] Hok]; [tauto|congruence].
    + intros (HB1 & HB2 & Hok). split; [left; tauto|done].
Qed.

(** The target set of [broadcast_to_admins], read off the message. *)
Lemma target_admins_cases (m : message) (w : world) :
  target_admins w m =
    match msg_conversation_id m with
    | Some cid => if String.eqb cid "" then dom (admin_connections w)
                  else default ∅ (conversation_subscriptions w !! cid)
    | None => dom (admin_connections w)
    end.
Proof.
  unfold target_admins, conversation_key.
  destruct (msg_conversation_id m) as [cid|]; [|done].
  by destruct (String.eqb cid "").
Qed.

(** A publisher that awaits [broadcast_to_admins] on [c] once per message,
    when no send raises an exception other than the two caught. *)
Lemma publish_all_delivers (net : network) (msgs : list message) (c A : string) :
  forall w : world,
  (forall a, send_result (net a) <> SendOtherError) ->
  Forall (fun m => conversation_key m = Some c) msgs ->
  A ∈ default ∅ (conversation_subscriptions w !! c) ->
  is_Some (admin_connections w !! A) ->
  send_result (net A) = SendOk ->
  exists w', publish_all net msgs w = PyOk w' /\ received A w' = received A w ++ msgs.
Proof.
  induction msgs as [|m msgs IH]; intros w Hno Hall Hsub Hcon Hok; cbn [publish_all].
  - exists w. by rewrite app_nil_r.
  - apply Forall_cons in Hall as [Hm Hall].
    destruct (broadcast_to_admins_ok net m w) as (w1 & Hb & _ & Hrcv & _ & Hkeep).
    { intros a _. apply Hno. }
    assert (HT : A ∈ target_admins w m) by (unfold target_admins; by rewrite Hm).
    destruct (Hkeep A) as [Hc1 Hs1].
    { intros (_ & _ & [H|H]); congruence. }
    destruct (IH w1 Hno Hall) as (w' & Hp & Hr').
    { by apply Hs1. } { by rewrite Hc1. } { done. }
    rewrite Hb. exists w'. split; [done|].
    rewrite Hr', Hrcv, decide_True by auto. by rewrite <- app_assoc.
Qed.

(** * Claims about the fan-out *)

(** C1 (counterexample): ["admin-1"]'s send raises an unexpected
    exception. ["admin-2"] is subscribed to ["room-42"], connected, and its
    sends succeed, yet the broadcast of a message on ["room-42"] raises
    before reaching it, so it receives nothing. *)
Lemma other_error_skips_later_subscriber :
  "admin-2" ∈ default ∅ (conversation_subscriptions Scenarios.w_room42 !! "room-42") /\
  is_Some (admin_connections Scenarios.w_room42 !! "admin-2") /\
  send_result (Scenarios.net_admin1_broken "admin-2") = SendOk /\
  exists w', broadcast_to_admins Scenarios.net_admin1_broken Scenarios.hello Scenarios.w_room42
               = PyRaise OtherException w' /\
             received "admin-2" w' = [].
Proof.
  split; [apply (bool_decide_unpack _); vm_compute; exact I|].
  split; [vm_compute; by eexists|]. split; [reflexivity|].
  eexists. split; [vm_compute; reflexivity|]. vm_compute. reflexivity.
Qed.

(** C1 (amended): one [broadcast_to_admins] call hands a message to an
    admin's channel at most once. When no send raises an exception other
    than ConnectionClosed and WebSocketDisconnect, a connected subscriber
    of [c] whose sends succeed receives the messages of in-order awaited
    calls on [c] exactly once each, in publish order. When the send to a
    connected target [b] raises another exception, the call raises it,
    and no admin outside the targets [pre] the loop reached before [b]
    receives the message. *)
Theorem publish_delivers_at_most_once_in_order (net : network) (c A : string) :
  (forall (m : message) (w : world), exists l,
     received A (py_state (broadcast_to_admins net m w)) = received A w ++ l /\
     (l = [] \/ l = [m])) /\
  (forall (msgs : list message) (w : world),
     (forall a, send_result (net a) <> SendOtherError) ->
     Forall (fun m => conversation_key m = Some c) msgs ->
     A ∈ default ∅ (conversation_subscriptions w !! c) ->
     is_Some (admin_connections w !! A) ->
     send_result (net A) = SendOk ->
     exists w', publish_all net msgs w = PyOk w' /\ received A w' = received A w ++ msgs) /\
  (forall (m : message) (w : world) (pre post : list string) (b : string),
     elements (target_admins w m) = pre ++ b :: post ->
     is_Some (admin_connections w !! b) ->
     send_result (net b) = SendOtherError ->
     (forall a, a ∈ pre -> is_Some (admin_connections w !! a) ->
        send_result (net a) <> SendOtherError) ->
     A ∉ pre ->
     exists w', broadcast_to_admins net m w = PyRaise OtherException w' /\
                received A w' = received A w).
Proof.
  split; [|split].
  - intros m w.
    destruct (broadcast_to_admins_run net m w) as (w' & Hb & _ & Hrcv & _).
    cbv zeta in Hb, Hrcv. rewrite Hb.
    eexists. split.
    + destruct (attempted _ _ _).2; simpl; apply Hrcv.
    + case_decide; [by right|by left].
  - intros msgs w. apply publish_all_delivers.
  - intros m w pre post b Hel Hb Hbe Hpre HA.
    destruct (broadcast_to_admins_other_error net m w pre post b Hel Hb Hbe Hpre)
      as (w' & Hbc & _ & _ & _ & Hrcv).
    exists w'. split; [done|]. rewrite Hrcv, decide_False; [apply app_nil_r|tauto].
Qed.

Lemma publish_delivers_at_most_once_in_order_witness :
  (exists w', publish_all Scenarios.net_ok [Scenarios.hello; Scenarios.bye] Scenarios.w_room42 = PyOk w' /\
     received "admin-1" w' = received "admin-1" Scenarios.w_room42 ++ [Scenarios.hello; Scenarios.bye]) /\
  (exists w', broadcast_to_admins Scenarios.net_admin1_broken Scenarios.hello Scenarios.w_room42
                = PyRaise OtherException w' /\
              received "admin-2" w' = received "admin-2" Scenarios.w_room42).
Proof.
  split.
  - destruct (publish_delivers_at_most_once_in_order Scenarios.net_ok "room-42" "admin-1")
      as (_ & Hp & _).
    apply Hp.
    + intros a. vm_compute. discriminate.
    + repeat constructor.
    + apply (bool_decide_unpack _). vm_compute. exact I.
    + vm_compute. by eexists.
    + reflexivity.
  - destruct (publish_delivers_at_most_once_in_order Scenarios.net_admin1_broken "room-42" "admin-2")
      as (_ & _ & Hc).
    apply (Hc Scenarios.hello Scenarios.w_room42 [] ["admin-2"] "admin-1").
    + vm_compute. reflexivity.
    + vm_compute. by eexists.
    + reflexivity.
    + intros a Ha. by apply elem_of_nil in Ha.
    + intros Ha. by apply elem_of_nil in Ha.
Defined.

(** C5 (counterexample): ["admin-1"]'s websocket is closed and
    ["admin-2"]'s send raises an unexpected exception. The broadcast on
    ["room-42"] raises to its caller, and ["admin-1"], whose transport
    dropped, stays connected and subscribed. *)
Lemma other_error_escapes_broadcast :
  exists w', broadcast_to_admins Scenarios.net_admin_mixed Scenarios.hello Scenarios.w_room42
               = PyRaise OtherException w' /\
             transport_failure (send_result (Scenarios.net_admin_mixed "admin-1")) /\
             admin_connections w' !! "admin-1" = Some 1 /\
             "admin-1" ∈ default ∅ (conversation_subscriptions w' !! "room-42").
Proof.
  eexists. split; [vm_compute; reflexivity|].
  split; [left; reflexivity|]. split; [vm_compute; reflexivity|].
  apply (bool_decide_unpack _). vm_compute. exact I.
Qed.

(** C5 (amended): when no connected target's send raises an exception
    other than ConnectionClosed and WebSocketDisconnect, the call returns
    normally, every target whose send fails with one of those two ends up
    neither connected nor subscribed anywhere, and every connected target
    whose send succeeds receives the message. When the send to a connected
    target [b] raises another exception, the call raises it, no admin is
    removed or unsubscribed, and no admin outside the targets [pre]
    reached before [b] receives the message. *)
Theorem broadcast_failure_containment (net : network) (m : message) (w : world) :
  ((forall a, a ∈ target_admins w m -> is_Some (admin_connections w !! a) ->
      send_result (net a) <> SendOtherError) ->
   exists w', broadcast_to_admins net m w = PyOk w' /\
     (forall B, B ∈ target_admins w m -> is_Some (admin_connections w !! B) ->
        transport_failure (send_result (net B)) -> detached B w') /\
     (forall B, B ∈ target_admins w m -> is_Some (admin_connections w !! B) ->
        send_result (net B) = SendOk -> received B w' = received B w ++ [m])) /\
  (forall (pre post : list string) (b : string),
     elements (target_admins w m) = pre ++ b :: post ->
     is_Some (admin_connections w !! b) ->
     send_result (net b) = SendOtherError ->
     (forall a, a ∈ pre -> is_Some (admin_connections w !! a) ->
        send_result (net a) <> SendOtherError) ->
     exists w', broadcast_to_admins net m w = PyRaise OtherException w' /\
       admin_connections w' = admin_connections w /\
       conversation_subscriptions w' = conversation_subscriptions w /\
       forall B, B ∉ pre -> received B w' = received B w).
Proof.
  split.
  - intros Hno.
    destruct (broadcast_to_admins_no_error net m w Hno) as (w' & Hb & _ & Hrcv & Hdet).
    exists w'. split; [done|]. split; [done|].
    intros B HB HcB Hok. rewrite Hrcv. by rewrite decide_True.
  - intros pre post b Hel Hb Hbe Hpre.
    destruct (broadcast_to_admins_other_error net m w pre post b Hel Hb Hbe Hpre)
      as (w' & Hbc & Hc & Hs & _ & Hrcv).
    exists w'. split; [done|]. split; [done|]. split; [done|].
    intros B HB. rewrite Hrcv, decide_False; [apply app_nil_r|tauto].
Qed.

Lemma broadcast_failure_containment_witness :
  (exists w', broadcast_to_admins Scenarios.net_admin2_closed Scenarios.hello Scenarios.w_room42 = PyOk w' /\
     detached "admin-2" w' /\
     received "admin-1" w' = received "admin-1" Scenarios.w_room42 ++ [Scenarios.hello]) /\
  (exists w', broadcast_to_admins Scenarios.net_admin_mixed Scenarios.hello Scenarios.w_room42
                = PyRaise OtherException w' /\
     admin_connections w' = admin_connections Scenarios.w_room42 /\
     conversation_subscriptions w' = conversation_subscriptions Scenarios.w_room42).
Proof.
  split.
  - destruct (broadcast_failure_containment Scenarios.net_admin2_closed Scenarios.hello
                Scenarios.w_room42) as [Hok _].
    destruct Hok as (w' & Hb & Hdet & Hrcv).
    { intros a _ _. unfold Scenarios.net_admin2_closed. by destruct (String.eqb a "admin-2"). }
    exists w'. split; [done|]. split.
    + apply Hdet; [apply (bool_decide_unpack _); vm_compute; exact I|vm_compute; by eexists|].
      left. reflexivity.
    + apply Hrcv; [apply (bool_decide_unpack _); vm_compute; exact I|vm_compute; by eexists|].
      reflexivity.
  - destruct (broadcast_failure_containment Scenarios.net_admin_mixed Scenarios.hello
                Scenarios.w_room42) as [_ Herr].
    destruct (Herr ["admin-1"] [] "admin-2") as (w' & Hb & Hc & Hs & _).
    + vm_compute. reflexivity.
    + vm_compute. by eexists.
    + reflexivity.
    + intros a ->%list_elem_of_singleton _. discriminate.
    + exists w'. exact (conj Hb (conj Hc Hs)).
Defined.

(** C10 (counterexample): a message whose ["conversation_id"] is the
    empty string names a conversation nobody subscribes to, yet the empty
    string is falsy, so the message goes to every connected admin. *)
Lemma empty_conversation_id_reaches_all :
  msg_conversation_id Scenarios.blank_update = Some "" /\
  conversation_subscriptions Scenarios.w_room42 !! "" = None /\
  exists w', broadcast_to_admins Scenarios.net_ok Scenarios.blank_update Scenarios.w_room42 = PyOk w' /\
    received "admin-1" w' = [Scenarios.blank_update] /\
    received "admin-2" w' = [Scenarios.blank_update].
Proof.
  split; [reflexivity|]. split; [vm_compute; reflexivity|].
  eexists. split; [vm_compute; reflexivity|]. split; vm_compute; reflexivity.
Qed.

(** C10 (amended): the admins [broadcast_to_admins] can deliver a message
    to are those of the subscription set of its ["conversation_id"] when
    that id is a non-empty string, and every connected admin when the
    message has no id or the empty string as id. No other admin's channel
    receives anything, and when no connected target's send raises an
    exception other than the two caught, every connected admin of that
    set whose send succeeds receives the message. *)
Theorem broadcast_to_admins_recipients (net : network) (m : message) (w : world) :
  let T := match msg_conversation_id m with
           | Some cid => if String.eqb cid "" then dom (admin_connections w)
                         else default ∅ (conversation_subscriptions w !! cid)
           | None => dom (admin_connections w)
           end in
  (forall B, B ∉ T -> received B (py_state (broadcast_to_admins net m w)) = received B w) /\
  ((forall a, a ∈ T -> is_Some (admin_connections w !! a) -> send_result (net a) <> SendOtherError) ->
   exists w', broadcast_to_admins net m w = PyOk w' /\
     forall B, B ∈ T -> is_Some (admin_connections w !! B) -> send_result (net B) = SendOk ->
       received B w' = received B w ++ [m]).
Proof.
  cbv zeta. rewrite <- (target_admins_cases m w). split.
  - intros B HB.
    destruct (broadcast_to_admins_run net m w) as (w' & Hb & _ & Hrcv & _).
    cbv zeta in Hb, Hrcv. rewrite Hb.
    assert (Hw : py_state (if (attempted net (admin_connections w) (elements (target_admins w m))).2
                           then PyRaise OtherException w' else PyOk w') = w')
      by (by destruct (attempted _ _ _).2).
    rewrite Hw, Hrcv, decide_False; [apply app_nil_r|].
    intros [Hin _]. apply attempted_sub in Hin as [Hin _].
    apply HB. by apply elem_of_elements in Hin.
  - intros Hno.
    destruct (broadcast_to_admins_no_error net m w Hno) as (w' & Hb & _ & Hrcv & _).
    exists w'. split; [done|].
    intros B HB HcB Hok. rewrite Hrcv. by rewrite decide_True.
Qed.

Lemma broadcast_to_admins_recipients_witness :
  received "admin-3" (py_state (broadcast_to_admins Scenarios.net_ok Scenarios.hello Scenarios.w_room42)) =
    received "admin-3" Scenarios.w_room42 /\
  exists w', broadcast_to_admins Scenarios.net_ok Scenarios.dashboard_notice Scenarios.w_room42 = PyOk w' /\
    received "admin-2" w' = received "admin-2" Scenarios.w_room42 ++ [Scenarios.dashboard_notice].
Proof.
  split.
  - destruct (broadcast_to_admins_recipients Scenarios.net_ok Scenarios.hello Scenarios.w_room42)
      as [Hout _].
    apply Hout. apply (bool_decide_unpack _). vm_compute. exact I.
  - destruct (broadcast_to_admins_recipients Scenarios.net_ok Scenarios.dashboard_notice
                Scenarios.w_room42) as [_ Hin].
    destruct Hin as (w' & Hb & Hrcv).
    { intros a _ _. vm_compute. discriminate. }
    exists w'. split; [done|]. apply Hrcv.
    + apply (bool_decide_unpack _). vm_compute. exact I.
    + vm_compute. by eexists.
    + reflexivity.
Defined.

(** C8: [remove_admin] (the manager's only unsubscribe path) is
    idempotent, never raises, and on an admin that is already detached
    (in a state without empty subscription sets, which every
    [subscribe_to_conversation] and [remove_admin] maintains) it changes
    nothing. *)
Theorem remove_admin_idempotent (a : string) (w : world) :
  remove_admin a (remove_admin a w) = remove_admin a w /\
  (detached a w -> subscriptions_nonempty w -> remove_admin a w = w).
Proof.
  split.
  - apply world_eq.
    + rewrite !remove_admin_connections. by rewrite delete_delete_eq.
    + rewrite !remove_admin_subscriptions. apply map_eq. intros j.
      rewrite !remove_from_subscriptions_lookup. apply prune_subscribers_twice.
    + by rewrite !(proj1 (remove_admin_outbox _ _)).
    + by rewrite !(proj2 (remove_admin_outbox _ _)).
  - intros [Hc Hs] Hne. apply world_eq.
    + rewrite remove_admin_connections. by apply delete_id.
    + rewrite remove_admin_subscriptions. apply map_eq. intros j.
      rewrite remove_from_subscriptions_lookup.
      destruct (conversation_subscriptions w !! j) as [s|] eqn:Hj; simpl; [|done].
      unfold prune_subscribers.
      assert (Heq : s ∖ {[a]} = s) by (specialize (Hs j s Hj); set_solver).
      rewrite Heq, decide_False; [done|]. by apply (Hne j).
    + apply remove_admin_outbox.
    + apply remove_admin_outbox.
Qed.

Lemma remove_admin_idempotent_witness :
  remove_admin "admin-3" Scenarios.w_room42 = Scenarios.w_room42.
Proof.
  apply (remove_admin_idempotent "admin-3" Scenarios.w_room42).
  - split.
    + vm_compute. reflexivity.
    + intros c s Hs. apply (bool_decide_unpack _). revert c s Hs.
      apply (bool_decide_unpack _). vm_compute. exact I.
  - intros c s Hs. apply (bool_decide_unpack _). revert c s Hs.
    apply (bool_decide_unpack _). vm_compute. exact I.
Defined.

(** * Back-pressure *)

(** C6 (counterexample): with ["admin-1"]'s channel taking 20 seconds per
    send, broadcasting one interim transcript to ["room-42"] returns only
    20 seconds later: the slow subscriber holds up the publish call. *)
Lemma slow_subscriber_blocks_publish :
  exists w1,
    broadcast_to_admins Scenarios.net_admin1_slow Scenarios.interim Scenarios.w_room42 = PyOk w1 /\
    clock w1 = clock Scenarios.w_room42 + 20 /\
    received "admin-2" w1 = [Scenarios.interim].
Proof.
  exists (py_state (broadcast_to_admins Scenarios.net_admin1_slow Scenarios.interim Scenarios.w_room42)).
  split; [vm_compute; reflexivity|]. split; vm_compute; reflexivity.
Qed.

(** C6 (amended): [broadcast_to_admins] keeps no buffer and has no drop
    policy: it awaits the sends to the connected target admins one after
    the other, so the call lasts the sum of the durations of the sends it
    awaits. When no send raises an exception other than the two caught,
    it awaits every connected target's send and each one whose send
    succeeds receives the message, whatever its type. When the send to a
    connected target [b] raises another exception, the call stops there:
    it has awaited the connected targets [pre] before [b] and [b] itself,
    those of [pre] whose send succeeded received the message, and no
    other admin did. *)
Theorem broadcast_awaits_attempted_sends (net : network) (m : message) (w : world) :
  ((forall a, a ∈ target_admins w m -> is_Some (admin_connections w !! a) ->
      send_result (net a) <> SendOtherError) ->
   exists w', broadcast_to_admins net m w = PyOk w' /\
     clock w' = clock w + sum_list_with (fun a => send_latency (net a))
                  (filter (fun a => is_Some (admin_connections w !! a))
                     (elements (target_admins w m))) /\
     forall B, B ∈ target_admins w m -> is_Some (admin_connections w !! B) ->
       send_result (net B) = SendOk -> received B w' = received B w ++ [m]) /\
  (forall (pre post : list string) (b : string),
     elements (target_admins w m) = pre ++ b :: post ->
     is_Some (admin_connections w !! b) ->
     send_result (net b) = SendOtherError ->
     (forall a, a ∈ pre -> is_Some (admin_connections w !! a) ->
        send_result (net a) <> SendOtherError) ->
     exists w', broadcast_to_admins net m w = PyRaise OtherException w' /\
       clock w' = clock w + sum_list_with (fun a => send_latency (net a))
                    (filter (fun a => is_Some (admin_connections w !! a)) pre)
                  + send_latency (net b) /\
       (forall B, B ∈ pre -> is_Some (admin_connections w !! B) ->
          send_result (net B) = SendOk -> received B w' = received B w ++ [m]) /\
       (forall B, B ∉ pre -> received B w' = received B w)).
Proof.
  split.
  - intros Hno.
    destruct (broadcast_to_admins_no_error net m w Hno) as (w' & Hb & Hclk & Hrcv & _).
    exists w'. split; [done|]. split; [done|].
    intros B HB HcB Hok. rewrite Hrcv. by rewrite decide_True.
  - intros pre post b Hel Hb Hbe Hpre.
    destruct (broadcast_to_admins_other_error net m w pre post b Hel Hb Hbe Hpre)
      as (w' & Hbc & _ & _ & Hclk & Hrcv).
    exists w'. split; [done|]. split; [done|]. split.
    + intros B HB HcB Hok. rewrite Hrcv. by rewrite decide_True.
    + intros B HB. rewrite Hrcv, decide_False; [apply app_nil_r|tauto].
Qed.

Lemma broadcast_awaits_attempted_sends_witness :
  (exists w', broadcast_to_admins Scenarios.net_admin1_slow Scenarios.interim Scenarios.w_room42 = PyOk w' /\
     clock w' = clock Scenarios.w_room42 + 20) /\
  (exists w', broadcast_to_admins Scenarios.net_admin1_broken Scenarios.interim Scenarios.w_room42
                = PyRaise OtherException w' /\
     clock w' = clock Scenarios.w_room42).
Proof.
  split.
  - destruct (broadcast_awaits_attempted_sends Scenarios.net_admin1_slow Scenarios.interim
                Scenarios.w_room42) as [Hok _].
    destruct Hok as (w' & Hb & Hclk & _).
    { intros a _ _. unfold Scenarios.net_admin1_slow. by destruct (String.eqb a "admin-1"). }
    exists w'. split; [done|]. rewrite Hclk. vm_compute. reflexivity.
  - destruct (broadcast_awaits_attempted_sends Scenarios.net_admin1_broken Scenarios.interim
                Scenarios.w_room42) as [_ Herr].
    destruct (Herr [] ["admin-2"] "admin-1") as (w' & Hb & Hclk & _).
    + vm_compute. reflexivity.
    + vm_compute. by eexists.
    + reflexivity.
    + intros a Ha. by apply elem_of_nil in Ha.
    + exists w'. split; [done|]. rewrite Hclk. vm_compute. reflexivity.
Defined.

End ManagerFacts.

(** * Facts about the silence watchdog *)
Module HealthFacts.
Import Health.
Local Open Scope Z_scope.

Lemma health_loop_alerts (cid : string) (obs : list (Z * Z)) :
  forall ss : option Z,
  (fun o => bool_decide (is_Some o)) <$> health_loop cid ss obs =
  streak_starts (bool_decide (is_Some ss)) (silent_tick <$> obs).
Proof.
  induction obs as [|[now last] obs IH]; intros ss; [done|].
  cbn [health_loop fmap list_fmap streak_starts]. unfold health_step, silent_tick. simpl.
  destruct (Z.gtb (now - last) (silence_threshold_s * us_per_second)).
  - destruct ss as [s0|]; simpl; f_equal; apply IH.
  - simpl. f_equal. apply IH.
Qed.

Lemma health_loop_count (cid : string) (obs : list (Z * Z)) :
  forall ss : option Z,
  alerts_raised (health_loop cid ss obs) =
  count_streaks (bool_decide (is_Some ss)) (silent_tick <$> obs).
Proof.
  induction obs as [|[now last] obs IH]; intros ss; [done|].
  unfold alerts_raised in *. cbn [health_loop]. unfold health_step, silent_tick.
  destruct (Z.gtb (now - last) (silence_threshold_s * us_per_second)) eqn:Hg;
    [destruct ss as [s0|]|]; cbn -[filter]; rewrite ?Hg, filter_cons.
  - rewrite decide_False by (apply is_Some_None). apply IH.
  - rewrite decide_True by eauto. simpl. f_equal. apply IH.
  - rewrite decide_False by (apply is_Some_None). apply IH.
Qed.

Lemma health_loop_alert_payload (cid : string) (obs : list (Z * Z)) :
  forall (ss : option Z) (i : nat) (a : silence_alert),
  health_loop cid ss obs !! i = Some (Some a) ->
  exists now last, obs !! i = Some (now, last) /\
    alert_conversation_id a = cid /\ alert_duration_us a = now - last /\
    now - last > silence_threshold_s * us_per_second.
Proof.
  induction obs as [|[now last] obs IH]; intros ss i a; [done|].
  cbn [health_loop]. unfold health_step.
  destruct (Z.gtb_spec (now - last) (silence_threshold_s * us_per_second)) as [Hgt|Hle].
  - destruct ss as [s0|]; destruct i as [|i]; simpl.
    + done.
    + apply IH.
    + intros [= <-]. exists now, last. simpl. split; [done|]. split; [done|]. split; [done|]. lia.
    + apply IH.
  - destruct i as [|i]; simpl; [done|]. apply IH.
Qed.

Lemma health_run_decisions (net : Manager.network) (cid : string) (activity : Z -> Z)
    (fuel : nat) :
  forall (now : Z) (ss : option Z) (w : Manager.world),
  let ps := (health_run net cid activity fuel now ss w).1 in
  pass_alert <$> ps = health_loop cid ss ((fun p => (pass_time p, activity (pass_time p))) <$> ps).
Proof.
  induction fuel as [|fuel IH]; intros now ss w; [done|]. cbn zeta.
  cbn [health_run].
  destruct (health_step cid ss now (activity now)) as [ss' alert] eqn:Hs.
  destruct alert as [a|].
  - match goal with
    | |- context [health_run ?n ?c ?ac fuel ?t ?s ?ww] =>
        specialize (IH t s ww); destruct (health_run n c ac fuel t s ww) as [ps w'] eqn:Hr
    end.
    cbn zeta in IH |- *. cbn [fst] in IH |- *.
    cbn [fmap list_fmap health_loop pass_alert pass_time]. rewrite Hs. f_equal. exact IH.
  - match goal with
    | |- context [health_run ?n ?c ?ac fuel ?t ?s ?ww] =>
        specialize (IH t s ww); destruct (health_run n c ac fuel t s ww) as [ps w'] eqn:Hr
    end.
    cbn zeta in IH |- *. cbn [fst] in IH |- *.
    cbn [fmap list_fmap health_loop pass_alert pass_time]. rewrite Hs. f_equal. exact IH.
Qed.

Lemma health_run_timing (net : Manager.network) (cid : string) (activity : Z -> Z)
    (fuel : nat) :
  forall (now : Z) (ss : option Z) (w : Manager.world),
  let ps := (health_run net cid activity fuel now ss w).1 in
  length ps = fuel /\
  (forall p, ps !! 0%nat = Some p -> pass_time p = now) /\
  (forall i p p', ps !! i = Some p -> ps !! S i = Some p' ->
     pass_time p' = pass_time p + pass_busy p +
                    (if pass_raised p then 0 else sweep_interval_s * us_per_second)) /\
  (forall p, p ∈ ps -> 0 <= pass_busy p /\
     (pass_alert p = None -> pass_busy p = 0 /\ pass_raised p = false)).
Proof.
  induction fuel as [|fuel IH]; intros now ss w; cbn zeta.
  - cbn. split; [done|]. split; [done|]. split; [done|]. intros p Hp.
    by apply elem_of_nil in Hp.
  - cbn [health_run].
    destruct (health_step cid ss now (activity now)) as [ss' alert] eqn:Hs.
    destruct alert as [a|].
    + match goal with
      | |- context [health_run ?n ?c ?ac fuel ?t ?s ?ww] =>
          specialize (IH t s ww); destruct (health_run n c ac fuel t s ww) as [ps w'] eqn:Hr
      end.
      cbn zeta in IH |- *. cbn [fst] in IH |- *.
      destruct IH as (Hlen & H0 & Hstep & Hbusy).
      split; [cbn [length]; by rewrite Hlen|].
      split; [intros p [= <-]; reflexivity|].
      split.
      * intros [|i] p p' Hp Hp'.
        -- injection Hp as <-. apply H0 in Hp'. rewrite Hp'. cbn [pass_time pass_busy pass_raised].
           destruct (Manager.broadcast_to_admins _ _ _); lia.
        -- exact (Hstep i p p' Hp Hp').
      * intros p [->|Hp]%elem_of_cons; [|by apply Hbusy].
        cbn [pass_busy pass_alert]. split; [|discriminate]. unfold us_per_second. lia.
    + match goal with
      | |- context [health_run ?n ?c ?ac fuel ?t ?s ?ww] =>
          specialize (IH t s ww); destruct (health_run n c ac fuel t s ww) as [ps w'] eqn:Hr
      end.
      cbn zeta in IH |- *. cbn [fst] in IH |- *.
      destruct IH as (Hlen & H0 & Hstep & Hbusy).
      split; [cbn [length]; by rewrite Hlen|].
      split; [intros p [= <-]; reflexivity|].
      split.
      * intros [|i] p p' Hp Hp'.
        -- injection Hp as <-. apply H0 in Hp'. rewrite Hp'. cbn [pass_time pass_busy pass_raised].
           lia.
        -- exact (Hstep i p p' Hp Hp').
      * intros p [->|Hp]%elem_of_cons; [|by apply Hbusy].
        cbn [pass_busy pass_alert pass_raised]. split; [lia|done].
Qed.




End HealthFacts.

(** * Facts about the admin token *)
Module AuthFacts.
Import Auth.



End AuthFacts.

(** * Facts about the event log *)
Module MonitorFacts.
Import Monitor.

(** [self.db.store_event] is not a method of [DatabaseDriver]. *)
Lemma log_event_raises_at_store_event (mon : conversation_monitor) (e : conversation_event) :
  log_event mon e =
    PyRaise AttributeError
      (ConversationMonitor (conversation_id mon) (events mon ++ [e]) (status mon)
         (stored mon) (broadcast mon)).
Proof.
  unfold log_event, call_method.
  rewrite decide_False; [reflexivity|].
  unfold DatabaseDriver_methods.
  rewrite !elem_of_cons, elem_of_nil. intros [H|[H|H]]; [discriminate|discriminate|done].
Qed.



End MonitorFacts.

(** * Facts about the rest of [AdminWebSocketManager] *)
Module ManagerExtFacts.
Import Manager ManagerExt ManagerFacts.

Lemma received_set_clock (b : string) (t : nat) (w : world) :
  received b (set_clock t w) = received b w.
Proof. done. Qed.

Lemma send_json_received (net : network) (a b : string) (m : message) (w : world) :
  received b (send_json net a m w).2 =
  received b w ++ (if decide (a = b /\ send_result (net a) = SendOk) then [m] else []).
Proof.
  unfold send_json. destruct (send_result (net a)) eqn:Hr; simpl;
    rewrite ?received_add_outbox, ?received_set_clock;
    repeat case_decide; try naive_solver; by rewrite app_nil_r.
Qed.

Lemma send_json_frame (net : network) (a : string) (m : message) (w : world) :
  admin_connections (send_json net a m w).2 = admin_connections w /\
  conversation_subscriptions (send_json net a m w).2 = conversation_subscriptions w /\
  clock (send_json net a m w).2 = clock w + send_latency (net a) /\
  (send_json net a m w).1 = send_result (net a).
Proof. unfold send_json. by destruct (send_result (net a)). Qed.

Lemma send_audio_to_targets_spec (net : network) (m : message) (targets : list string) :
  forall (w : world), NoDup targets ->
  let w' := send_audio_to_targets net m targets w in
  admin_connections w' = admin_connections w /\
  conversation_subscriptions w' = conversation_subscriptions w /\
  clock w' = clock w + sum_list_with (fun a => send_latency (net a))
               (filter (fun a => is_Some (admin_connections w !! a)) targets) /\
  forall b, received b w' = received b w ++
    (if decide (b ∈ targets /\ is_Some (admin_connections w !! b) /\
                send_result (net b) = SendOk) then [m] else []).
Proof.
  induction targets as [|a rest IH]; intros w Hnd; cbn [send_audio_to_targets].
  - split; [done|]. split; [done|]. split; [simpl; lia|].
    intros b. rewrite decide_False; [by rewrite app_nil_r|]. intros [Hb _].
    by apply elem_of_nil in Hb.
  - apply NoDup_cons in Hnd as [Hnot Hnd].
    destruct (admin_connections w !! a) as [ws|] eqn:Ha.
    + rewrite filter_cons, decide_True by (rewrite Ha; eauto). cbn [sum_list_with].
      destruct (send_json_frame net a m w) as (Hc & Hs & Hclk & _).
      destruct (IH (send_json net a m w).2 Hnd) as (Hc' & Hs' & Hclk' & Hrcv).
      rewrite Hc in Hc', Hclk'. rewrite Hs in Hs'.
      split; [done|]. split; [done|]. split; [rewrite Hclk', Hclk; lia|].
      intros b. rewrite Hrcv, send_json_received, <- app_assoc. f_equal.
      rewrite Hc. destruct (decide (a = b)) as [<-|Hab].
      * rewrite (decide_False (P := a ∈ rest /\ _)) by tauto.
        assert (Hsa : is_Some (admin_connections w !! a)) by (rewrite Ha; eauto).
        destruct (decide (send_result (net a) = SendOk)) as [Hok|Hok].
        -- rewrite !decide_True; [done| |done]. split; [set_solver|done].
        -- rewrite !decide_False; [done| |tauto]. tauto.
      * rewrite (decide_False (P := a = b /\ _)) by tauto. simpl.
        apply decide_ext. rewrite elem_of_cons. naive_solver.
    + rewrite filter_cons, decide_False by (rewrite Ha; apply is_Some_None).
      destruct (IH w Hnd) as (Hc & Hs & Hclk & Hrcv).
      split; [done|]. split; [done|]. split; [done|].
      intros b. rewrite Hrcv. f_equal. destruct (decide (a = b)) as [<-|Hab].
      * rewrite !decide_False; [done| |]; [rewrite Ha; intros (_ & Hs' & _); by apply is_Some_None in Hs'|tauto].
      * repeat case_decide; try done; exfalso; set_solver.
Qed.

(** ** [broadcast_audio_chunk] *)

(** [broadcast_audio_chunk] always returns normally, whatever its sends
    raise; it never removes a connection or a subscription, so an admin
    whose send failed stays registered. The chunk reaches exactly the
    connected subscribers of that conversation whose send succeeds, with
    no fall-back to every connected admin, and the call lasts the sum of
    those subscribers' send latencies. *)
Theorem broadcast_audio_chunk_never_raises (net : network) (c chunk : string) (w : world) :
  exists w',
    broadcast_audio_chunk net c chunk w = PyOk w' /\
    admin_connections w' = admin_connections w /\
    conversation_subscriptions w' = conversation_subscriptions w /\
    clock w' = clock w + sum_list_with (fun a => send_latency (net a))
                 (filter (fun a => is_Some (admin_connections w !! a))
                    (elements (default ∅ (conversation_subscriptions w !! c)))) /\
    forall b, received b w' = received b w ++
      (if decide (b ∈ default ∅ (conversation_subscriptions w !! c) /\
                  is_Some (admin_connections w !! b) /\ send_result (net b) = SendOk)
       then [audio_chunk_message c chunk] else []).
Proof.
  unfold broadcast_audio_chunk.
  destruct (send_audio_to_targets_spec net (audio_chunk_message c chunk)
              (elements (default ∅ (conversation_subscriptions w !! c))) w
              (NoDup_elements _)) as (Hc & Hs & Hclk & Hrcv).
  eexists. split; [reflexivity|]. split; [done|]. split; [done|]. split; [done|].
  intros b. rewrite Hrcv. f_equal. apply decide_ext. by rewrite elem_of_elements.
Qed.

(** ** [register_admin] *)

(** [register_admin] stores the websocket under the admin id (replacing
    any earlier one) before sending the initial state, so the admin is
    registered even when that send raises; the exception then propagates.
    Subscriptions are untouched and only the new admin receives the
    ["initial_state"] message. *)
Theorem register_admin_registers_before_send (net : network) (a : string) (ws : websocket)
    (convs : string) (w : world) :
  let r := register_admin net a ws convs w in
  admin_connections (py_state r) = <[a := ws]> (admin_connections w) /\
  conversation_subscriptions (py_state r) = conversation_subscriptions w /\
  (forall b, received b (py_state r) = received b w ++
     (if decide (b = a /\ send_result (net a) = SendOk)
      then [initial_state_message convs] else [])) /\
  match r with
  | PyOk _ => send_result (net a) = SendOk
  | PyRaise e _ => send_result (net a) <> SendOk /\ e = send_exception (send_result (net a))
  end.
Proof.
  unfold register_admin.
  set (w1 := set_connections (<[a := ws]> (admin_connections w)) w).
  destruct (send_json_frame net a (initial_state_message convs) w1) as (Hc & Hs & _ & Hr).
  pose proof (send_json_received net a) as Hrcv.
  destruct (send_json net a (initial_state_message convs) w1) as [o w2] eqn:Hsend.
  simpl in Hr. subst o.
  assert (Hrc : forall b, received b w2 = received b w ++
     (if decide (b = a /\ send_result (net a) = SendOk)
      then [initial_state_message convs] else [])).
  { intros b. specialize (Hrcv b (initial_state_message convs) w1). rewrite Hsend in Hrcv.
    simpl in Hrcv. rewrite Hrcv. f_equal. apply decide_ext. naive_solver. }
  simpl in Hc, Hs.
  destruct (send_result (net a)) eqn:Hr; simpl;
    (split; [done|]); (split; [done|]); (split; [done|]); try done; by split.
Qed.

(** After [register_admin] succeeds, a later broadcast without a
    conversation id reaches the new admin: its channel has received the
    initial state and then the broadcast message. This holds when the new
    admin's sends succeed and no connected admin's send raises an
    exception other than ConnectionClosed and WebSocketDisconnect. *)
Theorem register_then_broadcast_reaches_admin (net : network) (a : string) (ws : websocket)
    (convs : string) (m : message) (w : world) :
  send_result (net a) = SendOk ->
  (forall b, b ∈ dom (admin_connections w) -> send_result (net b) <> SendOtherError) ->
  conversation_key m = None ->
  exists w1 w2,
    register_admin net a ws convs w = PyOk w1 /\
    broadcast_to_admins net m w1 = PyOk w2 /\
    received a w2 = received a w ++ [initial_state_message convs; m].
Proof.
  intros Hok Hno Hkey.
  destruct (register_admin_registers_before_send net a ws convs w) as (Hc & _ & Hrcv & Hr).
  destruct (register_admin net a ws convs w) as [w1|e w1] eqn:Hreg; simpl in *;
    [|by destruct Hr].
  destruct (broadcast_to_admins_ok net m w1) as (w2 & Hb & _ & Hrcv2 & _).
  { intros b Hb. unfold target_admins in Hb. rewrite Hkey, Hc, dom_insert_L in Hb.
    apply elem_of_union in Hb as [->%elem_of_singleton|Hb]; [by rewrite Hok|].
    by apply Hno. }
  exists w1, w2. split; [done|]. split; [done|].
  rewrite Hrcv2, Hrcv, decide_True by done. rewrite decide_True; [by rewrite <- app_assoc|].
  unfold target_admins. rewrite Hkey, Hc, dom_insert_L, lookup_insert_eq.
  split; [set_solver|]. split; [eauto|done].
Qed.

Lemma register_then_broadcast_reaches_admin_witness :
  exists w1 w2,
    register_admin Scenarios.net_ok "admin-3" 3 "[]" Scenarios.w_room42 = PyOk w1 /\
    broadcast_to_admins Scenarios.net_ok Scenarios.dashboard_notice w1 = PyOk w2 /\
    received "admin-3" w2 = received "admin-3" Scenarios.w_room42 ++
      [initial_state_message "[]"; Scenarios.dashboard_notice].
Proof.
  apply register_then_broadcast_reaches_admin.
  - reflexivity.
  - intros b _. unfold Scenarios.net_ok. discriminate.
  - reflexivity.
Defined.

(** ** [subscribe_to_conversation] with its history send *)

(** [subscribe_to_conversation] records the subscription whether or not
    the admin is connected. The history is sent only to a connected
    admin; for an admin that is not connected nothing is sent and no time
    passes. A failing history send raises after the subscription is
    recorded. *)
Theorem subscribe_records_before_history (net : network) (a c h : string) (w : world) :
  let r := ManagerExt.subscribe_to_conversation net a c h w in
  conversation_subscriptions (py_state r) !! c =
    Some (default ∅ (conversation_subscriptions w !! c) ∪ {[a]}) /\
  (forall c', c' <> c ->
     conversation_subscriptions (py_state r) !! c' = conversation_subscriptions w !! c') /\
  admin_connections (py_state r) = admin_connections w /\
  (forall b, received b (py_state r) = received b w ++
     (if decide (b = a /\ is_Some (admin_connections w !! a) /\ send_result (net a) = SendOk)
      then [conversation_history_message c h] else [])) /\
  (admin_connections w !! a = None -> clock (py_state r) = clock w /\ exists w', r = PyOk w') /\
  match r with
  | PyOk _ => True
  | PyRaise e _ => is_Some (admin_connections w !! a) /\ send_result (net a) <> SendOk /\
                   e = send_exception (send_result (net a))
  end.
Proof.
  unfold ManagerExt.subscribe_to_conversation.
  set (w1 := Manager.subscribe_to_conversation a c w).
  assert (Hs1 : conversation_subscriptions w1 =
    <[c := default ∅ (conversation_subscriptions w !! c) ∪ {[a]}]> (conversation_subscriptions w))
    by done.
  assert (Hc1 : admin_connections w1 = admin_connections w) by done.
  case_decide as Hin.
  - rewrite Hc1, elem_of_dom in Hin.
    destruct (send_json_frame net a (conversation_history_message c h) w1) as (Hc & Hs & _ & Hr).
    pose proof (send_json_received net a) as Hrcv.
    destruct (send_json net a (conversation_history_message c h) w1) as [o w2] eqn:Hsend.
    simpl in Hr. subst o.
    assert (Hrc : forall b, received b w2 = received b w ++
       (if decide (b = a /\ is_Some (admin_connections w !! a) /\ send_result (net a) = SendOk)
        then [conversation_history_message c h] else [])).
    { intros b. specialize (Hrcv b (conversation_history_message c h) w1).
      rewrite Hsend in Hrcv. simpl in Hrcv. rewrite Hrcv. f_equal. apply decide_ext. naive_solver. }
    simpl in Hc, Hs. try rewrite Hs1 in Hs. try rewrite Hc1 in Hc.
    assert (Hnone : admin_connections w !! a = None -> False)
      by (intros Hn; rewrite Hn in Hin; by apply is_Some_None in Hin).
    destruct (send_result (net a)) eqn:Hr; simpl; rewrite Hs;
      (split; [by rewrite lookup_insert_eq|]);
      (split; [intros c' Hc'; by rewrite lookup_insert_ne|]);
      (split; [done|]); (split; [done|]); (split; [intros ?; exfalso; by apply Hnone|]);
      done.
  - rewrite Hc1, elem_of_dom in Hin. simpl.
    split; [by rewrite lookup_insert_eq|].
    split; [intros c' Hc'; by rewrite lookup_insert_ne|].
    split; [done|]. split.
    + intros b. rewrite decide_False; [by rewrite app_nil_r|]. naive_solver.
    + split; [|done]. intros _. split; [done|]. by eexists.
Qed.

Lemma prune_subscribers_union (a : string) (o : option (gset string)) :
  Some (default ∅ o ∪ {[a]}) ≫= prune_subscribers a = o ≫= prune_subscribers a.
Proof.
  destruct o as [s|]; simpl; unfold prune_subscribers.
  - assert (Heq : (s ∪ {[a]}) ∖ {[a]} = s ∖ {[a]}) by set_solver. by rewrite Heq.
  - assert (Heq : (∅ ∪ {[a]}) ∖ {[a]} = (∅ : gset string)) by set_solver.
    by rewrite Heq, decide_True.
Qed.

(** Removing an admin undoes its subscriptions: [remove_admin] after
    [subscribe_to_conversation] leaves the same connections and the same
    subscription dict as [remove_admin] alone, whether the history send
    succeeded or raised. *)
Theorem remove_admin_undoes_subscribe (net : network) (a c h : string) (w : world) :
  let w' := remove_admin a (py_state (ManagerExt.subscribe_to_conversation net a c h w)) in
  admin_connections w' = admin_connections (remove_admin a w) /\
  conversation_subscriptions w' = conversation_subscriptions (remove_admin a w).
Proof.
  destruct (subscribe_records_before_history net a c h w) as (Hsc & Hso & Hc & _).
  cbv zeta. rewrite !remove_admin_connections, Hc. split; [done|].
  rewrite !remove_admin_subscriptions. apply map_eq. intros j.
  rewrite !remove_from_subscriptions_lookup.
  destruct (decide (j = c)) as [->|Hj].
  - rewrite Hsc. apply prune_subscribers_union.
  - by rewrite Hso.
Qed.

(** Subscribing again changes no subscription but sends the history
    again to a connected admin whose sends succeed. *)
Theorem resubscribe_resends_history (net : network) (a c h : string) (w : world) :
  let w1 := py_state (ManagerExt.subscribe_to_conversation net a c h w) in
  let w2 := py_state (ManagerExt.subscribe_to_conversation net a c h w1) in
  conversation_subscriptions w2 = conversation_subscriptions w1 /\
  received a w2 = received a w ++
    (if decide (is_Some (admin_connections w !! a) /\ send_result (net a) = SendOk)
     then [conversation_history_message c h; conversation_history_message c h] else []).
Proof.
  destruct (subscribe_records_before_history net a c h w) as (Hsc1 & Hso1 & Hc1 & Hr1 & _).
  set (w1 := py_state (ManagerExt.subscribe_to_conversation net a c h w)) in *.
  destruct (subscribe_records_before_history net a c h w1) as (Hsc2 & Hso2 & Hc2 & Hr2 & _).
  simpl. split.
  - apply map_eq. intros j. destruct (decide (j = c)) as [->|Hj].
    + rewrite Hsc2, Hsc1. simpl. f_equal. set_solver.
    + by rewrite Hso2.
  - rewrite Hr2, Hr1, Hc1, <- app_assoc.
    repeat case_decide; simpl; try done; naive_solver.
Qed.



End ManagerExtFacts.

(** * Facts about [broadcast_conversation_update] *)
Module UpdateFacts.
Import Manager ManagerExt ManagerFacts ManagerExtFacts.

Lemma send_update_to_all_ok (net : network) (m : message) (admins : list string) :
  forall (w : world) (d : list string),
    NoDup admins ->
    (forall a, a ∈ admins -> send_result (net a) = SendOk \/
                              send_result (net a) = SendConnectionClosed) ->
    exists w' d',
      send_update_to_all net m admins w d = PyOk (w', d') /\
      admin_connections w' = admin_connections w /\
      conversation_subscriptions w' = conversation_subscriptions w /\
      (forall b, received b w' = received b w ++
         (if decide (b ∈ admins /\ send_result (net b) = SendOk) then [m] else [])) /\
      (forall b, b ∈ d' <-> b ∈ d \/ (b ∈ admins /\ send_result (net b) = SendConnectionClosed)).
Proof.
  induction admins as [|a rest IH]; intros w d Hnd Hgood; cbn [send_update_to_all].
  - exists w, d. split; [done|]. split; [done|]. split; [done|]. split.
    + intros b. rewrite decide_False; [by rewrite app_nil_r|]. intros [Hb _].
      by apply elem_of_nil in Hb.
    + intros b. split; [by left|]. intros [Hb|[Hb _]]; [done|]. by apply elem_of_nil in Hb.
  - apply NoDup_cons in Hnd as [Hnot Hnd].
    assert (Hgood' : forall x, x ∈ rest -> send_result (net x) = SendOk \/
                                          send_result (net x) = SendConnectionClosed)
      by (intros x Hx; apply Hgood; set_solver).
    destruct (send_json_frame net a m w) as (Hc & Hs & _ & Hr).
    pose proof (send_json_received net a) as Hrcv0.
    destruct (send_json net a m w) as [o w1] eqn:Hsend. simpl in Hr, Hc, Hs. subst o.
    assert (Hrcv1 : forall b, received b w1 = received b w ++
              (if decide (a = b /\ send_result (net a) = SendOk) then [m] else [])).
    { intros b. specialize (Hrcv0 b m w). by rewrite Hsend in Hrcv0. }
    assert (Ha : send_result (net a) = SendOk \/ send_result (net a) = SendConnectionClosed)
      by (apply Hgood; set_solver).
    destruct Ha as [Ha|Ha]; rewrite Ha.
    + destruct (IH w1 d Hnd Hgood') as (w' & d' & Hrun & Hc' & Hs' & Hrcv & Hd).
      exists w', d'. split; [done|]. split; [by rewrite Hc'|]. split; [by rewrite Hs'|].
      split.
      * intros b. rewrite Hrcv, Hrcv1, <- app_assoc. f_equal.
        destruct (decide (a = b)) as [<-|Hab].
        -- rewrite decide_True by done. rewrite decide_False by tauto.
           rewrite decide_True; [done|]. split; [set_solver|done].
        -- rewrite decide_False by tauto. simpl. apply decide_ext.
           rewrite elem_of_cons. naive_solver.
      * intros b. rewrite Hd, elem_of_cons. split.
        -- intros [Hb|[Hb1 Hb2]]; [by left|right; tauto].
        -- intros [Hb|[[->|Hb1] Hb2]]; [by left| |right; tauto].
           rewrite Ha in Hb2. discriminate.
    + destruct (IH w1 (d ++ [a]) Hnd Hgood') as (w' & d' & Hrun & Hc' & Hs' & Hrcv & Hd).
      exists w', d'. split; [done|]. split; [by rewrite Hc'|]. split; [by rewrite Hs'|].
      split.
      * intros b. rewrite Hrcv, Hrcv1. rewrite (decide_False (P := a = b /\ _))
          by (rewrite Ha; intros [_ ?]; discriminate).
        rewrite app_nil_r. f_equal. apply decide_ext. rewrite elem_of_cons.
        split; [tauto|]. intros [[->|Hb1] Hb2]; [|tauto]. rewrite Ha in Hb2. discriminate.
      * intros b. rewrite Hd, elem_of_app, list_elem_of_singleton, elem_of_cons. split.
        -- intros [[Hb| ->]|[Hb1 Hb2]]; [by left|right; tauto|right; tauto].
        -- intros [Hb|[[->|Hb1] Hb2]]; [by left; left|by left; right|right; tauto].
Qed.

Lemma send_update_to_all_raises (net : network) (m : message) (admins : list string) :
  forall (w : world) (d : list string),
    (exists a, a ∈ admins /\ (send_result (net a) = SendWebSocketDisconnect \/
                              send_result (net a) = SendOtherError)) ->
    exists e st,
      send_update_to_all net m admins w d = PyRaise e st /\
      e <> ConnectionClosed /\
      admin_connections st.1 = admin_connections w /\
      conversation_subscriptions st.1 = conversation_subscriptions w.
Proof.
  induction admins as [|a rest IH]; intros w d (x & Hx & Hbad); cbn [send_update_to_all].
  - by apply elem_of_nil in Hx.
  - destruct (send_json_frame net a m w) as (Hc & Hs & _ & Hr).
    destruct (send_json net a m w) as [o w1] eqn:Hsend. simpl in Hr, Hc, Hs. subst o.
    destruct (send_result (net a)) eqn:Ha.
    + destruct (IH w1 d) as (e & st & Hrun & He & Hc' & Hs').
      { exists x. split; [|done]. apply elem_of_cons in Hx as [->|Hx]; [|done].
        rewrite Ha in Hbad. destruct Hbad; discriminate. }
      exists e, st. split; [done|]. split; [done|]. by rewrite Hc', Hs'.
    + destruct (IH w1 (d ++ [a])) as (e & st & Hrun & He & Hc' & Hs').
      { exists x. split; [|done]. apply elem_of_cons in Hx as [->|Hx]; [|done].
        rewrite Ha in Hbad. destruct Hbad; discriminate. }
      exists e, st. split; [done|]. split; [done|]. by rewrite Hc', Hs'.
    + eexists _, _. split; [reflexivity|]. simpl. split; [discriminate|]. done.
    + eexists _, _. split; [reflexivity|]. simpl. split; [discriminate|]. done.
Qed.

Lemma foldl_delete_lookup (l : list string) :
  forall (c : gmap string websocket) (b : string),
  foldl (fun c a => delete a c) c l !! b = if decide (b ∈ l) then None else c !! b.
Proof.
  induction l as [|a l IH]; intros c b; cbn [foldl].
  - rewrite decide_False; [done|]. by intros ?%elem_of_nil.
  - rewrite IH. destruct (decide (b = a)) as [->|Hba].
    + rewrite lookup_delete_eq. rewrite (decide_True (P := a ∈ a :: l)) by set_solver.
      by case_decide.
    + rewrite lookup_delete_ne by done. repeat case_decide; try done; exfalso; set_solver.
Qed.

(** When every connected admin's send succeeds or fails with
    [ConnectionClosed], [broadcast_conversation_update] returns normally:
    the update reaches every connected admin whose send succeeds, whether or
    not it subscribed to that conversation; exactly the admins whose socket
    was closed lose their connection; subscriptions are untouched. *)
Theorem conversation_update_reaches_all_connected (net : network) (c u : string) (w : world) :
  (forall b, b ∈ dom (admin_connections w) ->
     send_result (net b) = SendOk \/ send_result (net b) = SendConnectionClosed) ->
  exists w',
    broadcast_conversation_update net c u w = PyOk w' /\
    (forall b, admin_connections w' !! b =
       if decide (send_result (net b) = SendConnectionClosed) then None
       else admin_connections w !! b) /\
    conversation_subscriptions w' = conversation_subscriptions w /\
    (forall b, received b w' = received b w ++
       (if decide (is_Some (admin_connections w !! b) /\ send_result (net b) = SendOk)
        then [conversation_update_message c u] else [])).
Proof.
  intros Hgood. unfold broadcast_conversation_update.
  destruct (send_update_to_all_ok net (conversation_update_message c u)
              (elements (dom (admin_connections w))) w [] (NoDup_elements _))
    as (w1 & d & Hrun & Hc & Hs & Hrcv & Hd).
  { intros a Ha. apply Hgood. by apply elem_of_elements in Ha. }
  rewrite Hrun. eexists. split; [reflexivity|]. split; [|split; [done|]].
  - intros b. simpl. rewrite foldl_delete_lookup, Hc.
    destruct (decide (b ∈ d)) as [Hb|Hb].
    + apply Hd in Hb as [Hn|[Hb1 Hb2]]; [by apply elem_of_nil in Hn|].
      by rewrite decide_True.
    + case_decide as Hcl; [|done].
      destruct (admin_connections w !! b) eqn:Hl; [|done].
      exfalso. apply Hb. apply Hd. right. split; [|done].
      apply elem_of_elements, elem_of_dom. rewrite Hl. eauto.
  - intros b. unfold received. simpl. fold (received b w1). rewrite Hrcv. f_equal.
    apply decide_ext. by rewrite elem_of_elements, elem_of_dom.
Qed.

Lemma conversation_update_reaches_all_connected_witness :
  exists w',
    broadcast_conversation_update Scenarios.net_admin2_closed "room-42" "status: active"
      Scenarios.w_room42 = PyOk w' /\
    (forall b, admin_connections w' !! b =
       if decide (send_result (Scenarios.net_admin2_closed b) = SendConnectionClosed) then None
       else admin_connections Scenarios.w_room42 !! b) /\
    conversation_subscriptions w' = conversation_subscriptions Scenarios.w_room42 /\
    (forall b, received b w' = received b Scenarios.w_room42 ++
       (if decide (is_Some (admin_connections Scenarios.w_room42 !! b) /\
                   send_result (Scenarios.net_admin2_closed b) = SendOk)
        then [conversation_update_message "room-42" "status: active"] else [])).
Proof.
  apply conversation_update_reaches_all_connected.
  intros b _. unfold Scenarios.net_admin2_closed.
  destruct (String.eqb b "admin-2"); [right|left]; reflexivity.
Defined.

(** A send failing with anything other than [ConnectionClosed] (for
    instance [WebSocketDisconnect]) escapes [broadcast_conversation_update]:
    the call raises, and the cleanup after the loop never runs, so no
    connection is removed, not even those whose socket was found closed. *)
Theorem conversation_update_aborts_without_cleanup (net : network) (c u : string) (w : world) :
  (exists a, is_Some (admin_connections w !! a) /\
     (send_result (net a) = SendWebSocketDisconnect \/ send_result (net a) = SendOtherError)) ->
  exists e w',
    broadcast_conversation_update net c u w = PyRaise e w' /\
    e <> ConnectionClosed /\
    admin_connections w' = admin_connections w /\
    conversation_subscriptions w' = conversation_subscriptions w.
Proof.
  intros (a & Ha & Hbad). unfold broadcast_conversation_update.
  destruct (send_update_to_all_raises net (conversation_update_message c u)
              (elements (dom (admin_connections w))) w [])
    as (e & [w' d] & Hrun & He & Hc & Hs).
  { exists a. split; [|done]. by apply elem_of_elements, elem_of_dom. }
  rewrite Hrun. by exists e, w'.
Qed.

Lemma conversation_update_aborts_without_cleanup_witness :
  exists e w',
    broadcast_conversation_update
      (fun a => if String.eqb a "admin-2" then Channel SendWebSocketDisconnect 0
                else Channel SendOk 0) "room-42" "status: active" Scenarios.w_room42
      = PyRaise e w' /\
    e <> ConnectionClosed /\
    admin_connections w' = admin_connections Scenarios.w_room42 /\
    conversation_subscriptions w' = conversation_subscriptions Scenarios.w_room42.
Proof.
  apply conversation_update_aborts_without_cleanup.
  exists "admin-2". split; [vm_compute; by eexists|]. left. reflexivity.
Defined.

End UpdateFacts.

(** * Facts about [handle_speech_event] *)
Module SpeechFacts.
Import Manager Monitor Speech ManagerFacts.

Lemma conversation_key_some (t c p : string) :
  c <> "" -> conversation_key (Msg t (Some c) p) = Some c.
Proof.
  intros Hc. unfold conversation_key. simpl.
  destruct (String.eqb c "") eqn:He; [|done]. by apply String.eqb_eq in He.
Qed.

(** A final transcript is not persisted: [handle_speech_event] appends
    the ["speech"] event to the monitor's events, then [log_event] raises
    [AttributeError] at [self.db.store_event], so the event is neither
    stored nor broadcast and the admins' channels are untouched. An
    interim transcript is broadcast and leaves the monitor as it was; any
    other speech event changes nothing. *)
Theorem handle_speech_event_final_raises (net : network) (mon : conversation_monitor)
    (w : world) (ev : speech_event) :
  (se_type ev = FINAL_TRANSCRIPT ->
     handle_speech_event net mon w ev =
       PyRaise AttributeError
         (ConversationMonitor (conversation_id mon)
            (events mon ++ [ConversationEvent "speech" (se_text ev)])
            (status mon) (stored mon) (broadcast mon), w)) /\
  (se_type ev = INTERIM_TRANSCRIPT ->
     (py_state (handle_speech_event net mon w ev)).1 = mon /\
     (py_state (handle_speech_event net mon w ev)).2 =
       py_state (broadcast_to_admins net
                   (Msg "interim_transcript" (Some (conversation_id mon)) (se_text ev)) w)) /\
  (se_type ev = OTHER_SPEECH_EVENT -> handle_speech_event net mon w ev = PyOk (mon, w)).
Proof.
  unfold handle_speech_event.
  split; [|split]; intros Ht; rewrite Ht; cbn zeta.
  - rewrite (MonitorFacts.log_event_raises_at_store_event mon). reflexivity.
  - by destruct (broadcast_to_admins _ _ _).
  - done.
Qed.

Lemma handle_speech_event_final_raises_witness :
  handle_speech_event Scenarios.net_ok (ConversationMonitor "room-42" [] "active" [] [])
    Scenarios.w_room42 (SpeechEvent FINAL_TRANSCRIPT "customer" "hello") =
  PyRaise AttributeError
    (ConversationMonitor "room-42" [ConversationEvent "speech" "hello"] "active" [] [],
     Scenarios.w_room42).
Proof.
  apply (proj1 (handle_speech_event_final_raises Scenarios.net_ok
           (ConversationMonitor "room-42" [] "active" [] []) Scenarios.w_room42
           (SpeechEvent FINAL_TRANSCRIPT "customer" "hello"))).
  reflexivity.
Defined.

(** An interim transcript of a conversation with a non-empty id reaches
    exactly the connected admins subscribed to it whose send succeeds, as
    an ["interim_transcript"] message carrying that id and the text, when
    no connected subscriber's send raises an exception other than the two
    caught. *)
Theorem handle_speech_event_interim_reaches_subscribers (net : network)
    (mon : conversation_monitor) (w : world) (ev : speech_event) :
  se_type ev = INTERIM_TRANSCRIPT ->
  conversation_id mon <> "" ->
  (forall a, a ∈ default ∅ (conversation_subscriptions w !! conversation_id mon) ->
     is_Some (admin_connections w !! a) -> send_result (net a) <> SendOtherError) ->
  exists w',
    handle_speech_event net mon w ev = PyOk (mon, w') /\
    forall b, received b w' = received b w ++
      (if decide (b ∈ default ∅ (conversation_subscriptions w !! conversation_id mon) /\
                  is_Some (admin_connections w !! b) /\ send_result (net b) = SendOk)
       then [Msg "interim_transcript" (Some (conversation_id mon)) (se_text ev)]
       else []).
Proof.
  intros Ht Hcid Hno. unfold handle_speech_event. rewrite Ht.
  set (m := Msg "interim_transcript" (Some (conversation_id mon)) (se_text ev)).
  assert (Hk : target_admins w m =
               default ∅ (conversation_subscriptions w !! conversation_id mon))
    by (unfold target_admins, m; by rewrite conversation_key_some).
  destruct (broadcast_to_admins_no_error net m w) as (w' & Hb & _ & Hrcv & _).
  { rewrite Hk. exact Hno. }
  rewrite Hb. exists w'. split; [done|]. intros b. rewrite Hrcv, Hk. done.
Qed.

Lemma handle_speech_event_interim_reaches_subscribers_witness :
  exists w',
    handle_speech_event Scenarios.net_ok (ConversationMonitor "room-42" [] "active" [] [])
      Scenarios.w_room42 (SpeechEvent INTERIM_TRANSCRIPT "customer" "hel") =
      PyOk (ConversationMonitor "room-42" [] "active" [] [], w') /\
    forall b, received b w' = received b Scenarios.w_room42 ++
      (if decide (b ∈ default ∅ (conversation_subscriptions Scenarios.w_room42 !! "room-42") /\
                  is_Some (admin_connections Scenarios.w_room42 !! b) /\
                  send_result (Scenarios.net_ok b) = SendOk)
       then [Msg "interim_transcript" (Some "room-42") "hel"]
       else []).
Proof.
  apply (handle_speech_event_interim_reaches_subscribers Scenarios.net_ok
           (ConversationMonitor "room-42" [] "active" [] []) Scenarios.w_room42
           (SpeechEvent INTERIM_TRANSCRIPT "customer" "hel")).
  - reflexivity.
  - discriminate.
  - intros a _ _. unfold Scenarios.net_ok. discriminate.
Defined.

End SpeechFacts.

(** * Facts about recording storage *)
Module StorageFacts.
Import Storage.

Lemma list_ascii_of_string_app (s t : string) :
  String.list_ascii_of_string (s ++ t) =
  String.list_ascii_of_string s ++ String.list_ascii_of_string t.
Proof. induction s as [|c s IH]; simpl; [done|]. by rewrite IH. Qed.

Lemma string_app_inj_r (s1 s2 t : string) : (s1 ++ t = s2 ++ t)%string -> s1 = s2.
Proof.
  intros H. apply (f_equal String.list_ascii_of_string) in H.
  rewrite !list_ascii_of_string_app in H. apply app_inv_tail in H.
  rewrite <- (String.string_of_list_ascii_of_string s1),
          <- (String.string_of_list_ascii_of_string s2). by rewrite H.
Qed.

Lemma recording_object_name_inj (c1 c2 : string) :
  recording_object_name c1 = recording_object_name c2 -> c1 = c2.
Proof.
  unfold recording_object_name. intros H.
  apply (String.app_inj "conversations/") in H. by apply string_app_inj_r in H.
Qed.

(** [store_recording] returns the URL [get_recording_url] signs for the
    same conversation with its default 24 hours at the same time. Any URL
    [get_recording_url] gives for that conversation, whatever its validity
    and signing time, names the object now holding the uploaded data with
    content type ["video/mp4"]; the recordings of every other
    conversation are left as they were. *)
Theorem store_recording_url_round_trip (data c : string) (md : option (gmap string string))
    (ts signed_at : string) (store : object_store) :
  let r := store_recording data c md ts signed_at store in
  r.1 = get_recording_url c 24 signed_at /\
  (forall (h : nat) (t : string),
     let u := get_recording_url c h t in
     (fun o => (obj_data o, obj_content_type o)) <$> r.2 !! (url_bucket u, url_object u) =
       Some (data, "video/mp4")) /\
  forall c', c' <> c ->
    r.2 !! (bucket_name, recording_object_name c') = store !! (bucket_name, recording_object_name c').
Proof.
  cbv zeta. unfold store_recording. simpl. split; [done|].
  split; [intros h t; by rewrite lookup_insert_eq|].
  intros c' Hc. rewrite lookup_insert_ne; [done|].
  intros [= Hn]. apply Hc. change ((c ++ ".mp4")%string = (c' ++ ".mp4")%string) in Hn.
  apply string_app_inj_r in Hn. by subst.
Qed.

(** The egress webhook stores a recording under its egress id, while
    [get_recording_url] looks recordings up by conversation id: the object
    that a URL of [get_recording_url c] names is changed by
    [download_and_store_recording] only when [c] is the egress id, the
    download answered with status 200 and reading, the MinIO client and
    [put_object] all returned normally; any exception they raise is
    caught and leaves the object as it was. *)
Theorem webhook_recording_keyed_by_egress_id (status : nat) (content : string) (upload_ok : bool)
    (egress_id room_name size ts : string) (st : storage_state) (c : string) (h : nat)
    (t : string) :
  let st' := download_and_store_recording status content upload_ok egress_id room_name size ts st in
  let u := get_recording_url c h t in
  obj_data <$> objects st' !! (url_bucket u, url_object u) =
    if decide (c = egress_id /\ status = 200 /\ upload_ok = true) then Some content
    else obj_data <$> objects st !! (url_bucket u, url_object u).
Proof.
  cbv zeta. unfold download_and_store_recording.
  case_decide as Hs; [destruct upload_ok|]; simpl.
  - destruct (decide (c = egress_id)) as [->|Hc].
    + rewrite decide_True by done. by rewrite lookup_insert_eq.
    + rewrite decide_False by tauto. rewrite lookup_insert_ne; [done|].
      intros [= Hn]. apply Hc.
      change ((egress_id ++ ".mp4")%string = (c ++ ".mp4")%string) in Hn.
      apply string_app_inj_r in Hn. by subst.
  - rewrite decide_False; [done|]. intros (_ & _ & ?). discriminate.
  - rewrite decide_False; [done|]. tauto.
Qed.

(** When an egress reports several file results, each download is written
    to the same object [conversations/<egress id>.mp4], so the object ends
    up holding the body of the last result with a download URL whose
    download answered 200 and whose upload returned normally; earlier
    files are overwritten, and a failing one leaves the previous body. *)
Theorem egress_file_results_last_wins (fetch : string -> nat * string * bool)
    (egress_id room_name ts : string) (results : list file_result) (st : storage_state) :
  let key := (bucket_name, recording_object_name egress_id) in
  obj_data <$> objects (process_recording_completion fetch egress_id room_name ts results st) !! key =
    match last (filter (fun fr => download_url fr <> "" /\ (fetch (download_url fr)).1.1 = 200 /\
                                  (fetch (download_url fr)).2 = true)
                  results) with
    | Some fr => Some (fetch (download_url fr)).1.2
    | None => obj_data <$> objects st !! key
    end.
Proof.
  unfold process_recording_completion. cbv zeta.
  revert st. induction results as [|fr rest IH]; intros st; [done|].
  cbn [store_file_results]. rewrite IH, filter_cons.
  destruct (String.eqb_spec (download_url fr) "") as [He|He].
  - rewrite decide_False by tauto. done.
  - destruct (fetch (download_url fr)) as [[status body] upload_ok] eqn:Hf.
    cbn [fst snd]. unfold download_and_store_recording.
    destruct (decide (status = 200)) as [Hs|Hs]; [destruct upload_ok|].
    + rewrite decide_True by (split; [done|split; done]). rewrite last_cons.
      destruct (last (filter _ rest)); [done|]. simpl. rewrite Hf. by rewrite lookup_insert_eq.
    + rewrite decide_False by (intros (_ & _ & ?); discriminate). done.
    + rewrite decide_False by tauto. done.
Qed.

End StorageFacts.

(** * Facts about the retry loops *)
Module RetryFacts.
Import Retry.
Local Open Scope Z_scope.

(** [store_conversation_event] stops at the first successful insert;
    before each retry it sleeps 0.5 s, then 1 s (no sleep follows the
    last attempt). If all three attempts fail it raises, after 1.5 s of
    sleeping in total. *)
Theorem store_conversation_event_retries (ok : nat -> bool) :
  (exists k, (k < 3)%nat /\ ok k = true /\ (forall j, (j < k)%nat -> ok j = false) /\
     store_conversation_event ok =
       (false, map (fun a => 500 * 2 ^ Z.of_nat a) (seq 0 k), seq 0 (S k))) \/
  ((forall j, (j < 3)%nat -> ok j = false) /\
     store_conversation_event ok = (true, [500; 1000], [0; 1; 2]%nat)).
Proof.
  unfold store_conversation_event. simpl.
  destruct (ok 0%nat) eqn:H0.
  - left. exists 0%nat. split; [lia|]. split; [done|]. split; [lia|done].
  - destruct (ok 1%nat) eqn:H1.
    + left. exists 1%nat. split; [lia|]. split; [done|]. split; [|done].
      intros j Hj. by replace j with 0%nat by lia.
    + destruct (ok 2%nat) eqn:H2.
      * left. exists 2%nat. split; [lia|]. split; [done|]. split; [|done].
        intros j Hj. destruct j as [|[|j]]; [done|done|lia].
      * right. split; [|done]. intros j Hj. destruct j as [|[|[|j]]]; [done|done|done|lia].
Qed.

(** [handle_connection_error] sleeps before every reconnection attempt,
    the first included (1 s, 2 s, 4 s), stops at the first successful
    reconnect, and shuts down only when all three attempts fail and the
    agent is not connected. *)
Theorem handle_connection_error_backoff (ok : nat -> bool) (connected : bool) :
  let '(sleeps, tried, shutdown) := handle_connection_error ok connected in
  sleeps = map (fun a => 1000 * 2 ^ Z.of_nat a) tried /\
  ((exists k, (k < 3)%nat /\ ok k = true /\ (forall j, (j < k)%nat -> ok j = false) /\
      tried = seq 0 (S k) /\ shutdown = false) \/
   ((forall j, (j < 3)%nat -> ok j = false) /\ tried = [0; 1; 2]%nat /\
      shutdown = negb connected)).
Proof.
  unfold handle_connection_error. simpl.
  destruct (ok 0%nat) eqn:H0; simpl.
  - split; [done|]. left. exists 0%nat. repeat split; try done; lia.
  - destruct (ok 1%nat) eqn:H1; simpl.
    + split; [done|]. left. exists 1%nat. repeat split; try done; [lia|].
      intros j Hj. by replace j with 0%nat by lia.
    + destruct (ok 2%nat) eqn:H2; simpl.
      * split; [done|]. left. exists 2%nat. repeat split; try done; [lia|].
        intros j Hj. destruct j as [|[|j]]; [done|done|lia].
      * split; [done|]. right. split; [|done].
        intros j Hj. destruct j as [|[|[|j]]]; [done|done|done|lia].
Qed.

End RetryFacts.

(** * Facts about the dashboard's reconnection *)
Module ReconnectFacts.
Import Reconnect.



End ReconnectFacts.

(** * Facts about the other token issuers *)
Module AuthExtFacts.
Import Auth AuthExt.

(** [generate_customer_token] uses the customer id verbatim as identity,
    so a customer id of the form [admin_<id>] gets the very identity of
    the hidden admin token for [<id>], yet with a visible participant
    allowed to publish. *)
Theorem customer_token_can_take_admin_identity (room_name admin_id : string) :
  exists t1 t2,
    generate_customer_token room_name ("admin_" ++ admin_id) = Returns t1 /\
    generate_admin_token room_name admin_id = Returns t2 /\
    identity t1 = identity t2 /\
    can_publish (grants t1) = true /\ hidden (grants t1) = false /\
    can_publish (grants t2) = false /\ hidden (grants t2) = true.
Proof. by eexists _, _. Qed.

(** The [/api/get-token] endpoint answers HTTP 500 exactly when one of
    its fallible steps raises: building the token, [store_room_info] or
    [token.to_jwt()]. A successful answer names its customer
    [customer_<uuid>], which never equals an admin token's identity, and
    grants publishing in the room it returns, which is the requested room
    or, when none is given, a fresh [room_<uuid>]. When only [to_jwt()]
    fails, the room info has already been stored although the client gets
    the error. *)
Theorem get_token_identity_never_admin (rn pn u1 u2 : string)
    (token_ok store_ok jwt_ok : bool) :
  let r := get_token rn pn u1 u2 token_ok store_ok jwt_ok in
  let room_name := (if String.eqb rn "" then "room_" ++ u1 else rn)%string in
  (r.1 = HTTPException 500 <-> ~ (token_ok = true /\ store_ok = true /\ jwt_ok = true)) /\
  (forall v, r.1 = ApiOk v ->
     (forall room_name admin_id t, generate_admin_token room_name admin_id = Returns t ->
        tr_participant_identity v <> identity t) /\
     tr_participant_identity v = ("customer_" ++ u2)%string /\
     tr_participant_identity v = identity (tr_token v) /\
     room (grants (tr_token v)) = tr_room_name v /\
     can_publish (grants (tr_token v)) = true /\
     tr_room_name v = room_name) /\
  (token_ok = true -> store_ok = true -> jwt_ok = false ->
     r = (HTTPException 500,
          Some (room_name, if String.eqb pn "" then "Customer" else pn))).
Proof.
  cbv zeta. unfold get_token. split; [|split].
  - destruct token_ok, store_ok, jwt_ok; simpl; split; intros H;
      first [reflexivity | discriminate | (exfalso; by apply H) | (intros (? & ? & ?); discriminate)].
  - intros v Hv.
    destruct token_ok, store_ok, jwt_ok; simpl in Hv; try discriminate.
    injection Hv as <-. split.
    + intros room_name admin_id t Ht. inversion Ht; subst. simpl. intros H. inversion H.
    + repeat split.
  - intros -> -> ->. reflexivity.
Qed.

Lemma get_token_identity_never_admin_witness :
  get_token "" "" "1" "2" true true false =
    (HTTPException 500, Some ("room_1"%string, "Customer"%string)).
Proof.
  apply (proj2 (proj2 (get_token_identity_never_admin "" "" "1" "2" true true false)));
    reflexivity.
Defined.

(** [setup_admin_monitoring(admin_id, room_name)] issues the token that
    [generate_admin_token(room_name, admin_id)] issues (same identity and
    grants; note the swapped argument order), named ["System Monitor"]
    and marked with the ["admin"] role. *)
Theorem setup_admin_monitoring_matches_admin_token (admin_id room_name : string) :
  exists mt t,
    setup_admin_monitoring admin_id room_name = Returns mt /\
    generate_admin_token room_name admin_id = Returns t /\
    mt_token mt = t /\ mt_name mt = "System Monitor" /\ role (mt_metadata mt) = "admin".
Proof. by eexists _, _. Qed.

End AuthExtFacts.

(** * Facts about [formatDuration] *)
Module JsFacts.
Import Js.
Local Open Scope Z_scope.

Lemma padStart2_number_below_60 (s : Z) :
  0 <= s < 60 -> String.length (padStart2 (number_to_string s)) = 2%nat.
Proof.
  intros [H0 H1]. rewrite <- (Z2Nat.id s H0).
  assert (Hn : (Z.to_nat s < 60)%nat) by lia. clear H0 H1.
  generalize (Z.to_nat s) Hn. clear Hn. intros n Hn.
  do 60 (destruct n as [|n]; [reflexivity|]). lia.
Qed.

(** For a truthy start time not after [now], [formatDuration] prints the
    elapsed whole seconds as minutes and a two-character seconds field
    below 60: minutes times 60 plus seconds is the elapsed time. *)
Theorem formatDuration_minutes_seconds (start now : Z) :
  start <> 0 -> start <= now ->
  exists m s,
    formatDuration (Some start) now =
      (padStart2 (number_to_string m) ++ "m " ++ padStart2 (number_to_string s) ++ "s")%string /\
    0 <= s < 60 /\ 60 * m + s = (now - start) / 1000 /\
    String.length (padStart2 (number_to_string s)) = 2%nat.
Proof.
  intros Hs Hle.
  assert (Hd : 0 <= (now - start) / 1000) by (apply Z.div_pos; lia).
  set (d := (now - start) / 1000) in *.
  assert (Hrem : Z.rem d 60 = d mod 60) by (apply Z.rem_mod_nonneg; lia).
  pose proof (Z.mod_pos_bound d 60 ltac:(lia)) as Hb.
  pose proof (Z.div_mod d 60 ltac:(lia)) as Hdm.
  exists (d / 60), (Z.rem d 60). split.
  - unfold formatDuration. destruct start; [done| |]; reflexivity.
  - rewrite Hrem. split; [lia|]. split; [lia|]. apply padStart2_number_below_60. lia.
Qed.

Lemma formatDuration_minutes_seconds_witness :
  exists m s,
    formatDuration (Some 1000) 726000 =
      (padStart2 (number_to_string m) ++ "m " ++ padStart2 (number_to_string s) ++ "s")%string /\
    0 <= s < 60 /\ 60 * m + s = (726000 - 1000) / 1000 /\
    String.length (padStart2 (number_to_string s)) = 2%nat.
Proof. apply formatDuration_minutes_seconds; lia. Defined.

(** When [now] is before the start time (a skewed clock) and the elapsed
    seconds are not a multiple of 60, [formatDuration] mixes a floored
    minute count with a truncated, negative remainder: the seconds field
    is negative and the two fields add up to 60 seconds less than the
    elapsed time. *)
Theorem formatDuration_clock_skew (start now : Z) :
  start <> 0 -> now < start -> ((now - start) / 1000) mod 60 <> 0 ->
  exists m s,
    formatDuration (Some start) now =
      (padStart2 (number_to_string m) ++ "m " ++ padStart2 (number_to_string s) ++ "s")%string /\
    -60 < s < 0 /\ 60 * m + s = (now - start) / 1000 - 60.
Proof.
  intros Hs Hlt Hnz.
  pose proof (Z.mul_div_le (now - start) 1000 ltac:(lia)) as Hmd.
  set (d := (now - start) / 1000) in *.
  assert (Hneg : d < 0) by lia.
  assert (Hrem : Z.rem d 60 = - Z.rem (- d) 60).
  { rewrite <- Z.rem_opp_l'. by rewrite Z.opp_involutive. }
  assert (Hrm : Z.rem (- d) 60 = (- d) mod 60) by (apply Z.rem_mod_nonneg; lia).
  assert (Hop : (- d) mod 60 = 60 - d mod 60) by (apply Z.mod_opp_l_nz; lia).
  pose proof (Z.mod_pos_bound d 60 ltac:(lia)) as Hb.
  pose proof (Z.div_mod d 60 ltac:(lia)) as Hdm.
  exists (d / 60), (Z.rem d 60). split.
  - unfold formatDuration. destruct start; [done| |]; reflexivity.
  - rewrite Hrem, Hrm, Hop. split; lia.
Qed.

Lemma formatDuration_clock_skew_witness :
  exists m s,
    formatDuration (Some 100000) 99000 =
      (padStart2 (number_to_string m) ++ "m " ++ padStart2 (number_to_string s) ++ "s")%string /\
    -60 < s < 0 /\ 60 * m + s = (99000 - 100000) / 1000 - 60.
Proof.
  apply formatDuration_clock_skew; [lia|lia|].
  vm_compute. discriminate.
Defined.

End JsFacts.

(** * Facts about [TranscriptViewer.handleWebSocketMessage] *)
Module ViewerFacts.
Import Js Viewer QArith Qround.

(** A ["conversation_history"] message replaces the whole transcript:
    whatever an earlier message added (a final transcript, a silence
    alert) is gone afterwards. *)
Theorem history_message_discards_earlier_entries (now1 now2 : Z) (d h : ws_data)
    (st : viewer_state) :
  data_type h = "conversation_history" ->
  transcript (handleWebSocketMessage now2 h (handleWebSocketMessage now1 d st)) =
  transcript (handleWebSocketMessage now2 h st) /\
  transcript (handleWebSocketMessage now2 h st) = map (history_entry now2) (data_history h).
Proof.
  intros Hh. unfold handleWebSocketMessage. rewrite !Hh. simpl. by split.
Qed.

Lemma history_message_discards_earlier_entries_witness :
  let final := WsData "final_transcript" "" (EventFields None "t1" "customer" "bye" 1) [] "" 0 in
  let hist := WsData "conversation_history" ""
                (EventFields None "" "" "" 0) [EventFields (Some 7%Z) "t0" "customer" "hi" 1] "" 0 in
  transcript (handleWebSocketMessage 2000 hist (handleWebSocketMessage 1000 final
                (ViewerState [] "hel"))) =
  transcript (handleWebSocketMessage 2000 hist (ViewerState [] "hel")) /\
  transcript (handleWebSocketMessage 2000 hist (ViewerState [] "hel")) =
  map (history_entry 2000) (data_history hist).
Proof. intros final hist. apply history_message_discards_earlier_entries. reflexivity. Defined.

(** Every alert the silence watchdog raises is shown by the viewer as a
    ["system"] alert entry reporting a rounded silence of at least 30
    seconds, appended after the existing entries. *)
Theorem watchdog_alert_displayed_at_least_30s (cid : string) (obs : list (Z * Z)) (i : nat)
    (a : Health.silence_alert) (now : Z) (ts : string) (st : viewer_state) :
  Health.monitor_conversation_health cid obs !! i = Some (Some a) ->
  exists n : Z, (30 <= n)%Z /\
    handleWebSocketMessage now (silence_alert_data a ts) st =
    ViewerState (transcript st ++
                 [TranscriptEntry now ts "system"
                    ("⚠️ Prolonged silence detected (" ++ number_to_string n ++ "s)")%string
                    1 true true])
                (interimText st).
Proof.
  intros Ha. unfold Health.monitor_conversation_health in Ha.
  destruct (HealthFacts.health_loop_alert_payload cid obs None i a Ha)
    as (t & last & _ & _ & Hdur & Hgt).
  exists (math_round (Health.alert_duration_us a # 1000000)). split.
  - unfold math_round. rewrite <- (Qfloor_Z 30). apply Qfloor_resp_le.
    rewrite Hdur. unfold Health.silence_threshold_s, Health.us_per_second in Hgt.
    unfold Qle, Qplus. simpl. lia.
  - reflexivity.
Qed.

Lemma watchdog_alert_displayed_at_least_30s_witness :
  exists n : Z, (30 <= n)%Z /\
    handleWebSocketMessage 35000 (silence_alert_data
        (Health.SilenceAlert "room-42" 35000000 35000000) "00:00:35") (ViewerState [] "") =
    ViewerState ([] ++
                 [TranscriptEntry 35000 "00:00:35" "system"
                    ("⚠️ Prolonged silence detected (" ++ number_to_string n ++ "s)")%string
                    1 true true]) "".
Proof.
  apply (watchdog_alert_displayed_at_least_30s "room-42" Scenarios.room42_ticks 6).
  vm_compute. reflexivity.
Defined.

End ViewerFacts.
